(** * KYC document-verification pipeline (fde_poc.py)

    A shallow embedding of [DocumentReader] and [KYCProcessor] and the
    properties of the verification pipeline.

    Conventions.
    - A Python [str] is a [string]; each [ascii] stands for the code point
      of the same number (code points below 256).
    - A Python value that the pipeline handles (the result of [json.loads],
      a raw completion text) is a [json] value; a [dict] is a [JObj] whose
      members are kept in insertion order.
    - [json.loads] is a parameter of the development: [None] stands for
      [json.JSONDecodeError].  Every theorem holds for any decoder.
    - The remote model is a function from requests to completions; the
      requests a run issues are logged in order.
    - Readings of [time.time()] and the rounded difference of two of them
      are kept abstract; what the code prints is left out. *)

From Stdlib Require Import ZArith List String Ascii Bool Lia QArith.
Import ListNotations.
Local Open Scope string_scope.
Local Open Scope Z_scope.

Set Implicit Arguments.
Set Warnings "-register-all".

(** ** Python values *)

Inductive json : Type :=
| JNull
| JBool (b : bool)
| JInt (n : Z)
| JFloat (repr : string)
| JStr (s : string)
| JArr (items : list json)
| JObj (members : list (string * json)).

(** [type(v).__name__] *)
Definition type_name (v : json) : string :=
  match v with
  | JNull => "NoneType"
  | JBool _ => "bool"
  | JInt _ => "int"
  | JFloat _ => "float"
  | JStr _ => "str"
  | JArr _ => "list"
  | JObj _ => "dict"
  end.

(** [v == s] for a string literal [s] *)
Definition eq_str (v : json) (s : string) : bool :=
  match v with
  | JStr t => String.eqb t s
  | _ => false
  end.

(** *** Dictionaries: members in insertion order *)

Definition dict := list (string * json).

Definition keys (d : dict) : list string := map fst d.
Definition values (d : dict) : list json := map snd d.

(** [k in d] *)
Definition contains (d : dict) (k : string) : bool :=
  existsb (String.eqb k) (keys d).

(** [d.get(k, default)] *)
Fixpoint get (d : dict) (k : string) (default : json) : json :=
  match d with
  | [] => default
  | (k', v) :: d' => if String.eqb k' k then v else get d' k default
  end.

(** [del d[k]] *)
Definition remove (d : dict) (k : string) : dict :=
  filter (fun kv => negb (String.eqb (fst kv) k)) d.

(** ** Exceptions *)

Inductive exn_class : Type :=
| ValueError | TypeError | AttributeError | OSError | OtherException.

Record exn : Type := Exn { cls : exn_class; msg : string }.

(** [str(e)] *)
Definition str_exn (e : exn) : string := msg e.

Inductive outcome (A : Type) : Type :=
| Returned (a : A)
| Raised (e : exn).
Arguments Raised {A} e.

(** [v.attr] on a value that has no such attribute *)
Definition no_attribute (v : json) (attr : string) : exn :=
  Exn AttributeError
      ("'" ++ type_name v ++ "' object has no attribute '" ++ attr ++ "'").

(** ** class DocumentType(Enum) *)

Inductive DocumentType : Type :=
| PASSPORT | LICENSE | NATIONAL_ID | UTILITY_BILL | BANK_STATEMENT.

Definition value (t : DocumentType) : string :=
  match t with
  | PASSPORT => "passport"
  | LICENSE => "license"
  | NATIONAL_ID => "national_id"
  | UTILITY_BILL => "utility_bill"
  | BANK_STATEMENT => "bank_statement"
  end.

Definition all_document_types : list DocumentType :=
  [PASSPORT; LICENSE; NATIONAL_ID; UTILITY_BILL; BANK_STATEMENT].

(** ** The dictionaries returned by the validators *)

Record validation_details : Type := {
  vd_required_fields : list string;
  vd_provided_fields : list string
}.

(** A result dictionary of a validator; an absent key is [None]. *)
Record validation : Type := {
  is_valid : bool;
  error : option string;
  missing_fields : option (list string);
  details : option validation_details;
  compliance_check : option string
}.

(** ** class DocumentReader *)

Module DocumentReader.

Record config : Type := { required_fields : list string; prompt : string }.

Definition _document_configs : list (string * config) :=
  [ (value PASSPORT,
     {| required_fields :=
          ["full_name"; "date_of_birth"; "passport_number"; "nationality"; "expiry_date"];
        prompt := "Extract in JSON format:
                            - full_name
                            - date_of_birth
                            - passport_number
                            - nationality
                            - expiry_date" |});
    (value LICENSE,
     {| required_fields :=
          ["full_name"; "date_of_birth"; "license_number"; "state"; "expiry_date"];
        prompt := "Extract in JSON format:
                            - full_name
                            - date_of_birth
                            - license_number
                            - state
                            - expiry_date" |});
    (value NATIONAL_ID,
     {| required_fields :=
          ["full_name"; "date_of_birth"; "id_number"; "nationality"];
        prompt := "Extract in JSON format:
                            - full_name
                            - date_of_birth
                            - id_number
                            - nationality" |});
    (value UTILITY_BILL,
     {| required_fields :=
          ["service_provider"; "customer_name"; "address"; "bill_date"; "amount"];
        prompt := "Extract in JSON format:
                            - service_provider
                            - customer_name
                            - address
                            - bill_date
                            - amount" |});
    (value BANK_STATEMENT,
     {| required_fields :=
          ["bank_name"; "account_holder"; "account_number"; "statement_period"; "balance"];
        prompt := "Extract in JSON format:
                            - bank_name
                            - account_holder
                            - account_number
                            - statement_period
                            - balance" |}) ].

(** [self._document_configs.get(doc_type)] *)
Fixpoint lookup (table : list (string * config)) (doc_type : string) : option config :=
  match table with
  | [] => None
  | (k, c) :: rest => if String.eqb k doc_type then Some c else lookup rest doc_type
  end.

Definition get_document_prompt (doc_type : string) : option string :=
  match lookup _document_configs doc_type with
  | Some config => Some (prompt config)
  | None => None
  end.

Definition get_required_fields (doc_type : string) : list string :=
  match lookup _document_configs doc_type with
  | Some config => required_fields config
  | None => []
  end.

Section Validate.

Variable json_loads : string -> option json.

(** The body of the [try] block once [data] is bound: the comprehension
    over [required_fields] and the result dictionary.  [field not in data]
    raises on a value that is no container; [data.keys()] raises on a
    list or a string. *)
Definition check_fields (required : list string) (data : json) : outcome validation :=
  match data with
  | JObj d =>
      let missing := filter (fun field => negb (contains d field)) required in
      Returned {| is_valid := (List.length missing =? 0)%nat;
                  error := None;
                  missing_fields := Some missing;
                  details := Some {| vd_required_fields := required;
                                     vd_provided_fields := keys d |};
                  compliance_check := None |}
  | JArr _ | JStr _ => Raised (no_attribute data "keys")
  | JNull | JBool _ | JInt _ | JFloat _ =>
      Raised (Exn TypeError ("argument of type '" ++ type_name data ++ "' is not iterable"))
  end.

Definition validate_extracted_data (doc_type : string) (extracted_data : json)
  : outcome validation :=
  let required := get_required_fields doc_type in
  match required with
  | [] =>
      Returned {| is_valid := false;
                  error := Some ("Unknown document type: " ++ doc_type);
                  missing_fields := None; details := None; compliance_check := None |}
  | _ :: _ =>
      match extracted_data with
      | JStr text =>
          match json_loads text with
          | Some data => check_fields required data
          | None =>
              Returned {| is_valid := false;
                          error := Some "Invalid JSON format in extracted data";
                          missing_fields := None; details := None;
                          compliance_check := None |}
          end
      | data => check_fields required data
      end
  end.

End Validate.

End DocumentReader.

(** ** Text helpers of the Python runtime *)

Definition code (c : ascii) : Z := Z.of_N (N_of_ascii c).

(** [str.isspace] on one character (code points below 256) *)
Definition isspace (c : ascii) : bool :=
  let n := code c in
  ((9 <=? n) && (n <=? 13)) || ((28 <=? n) && (n <=? 32))
  || (n =? 133) || (n =? 160).

(** [str.lower] on one character (code points below 256) *)
Definition lower_char (c : ascii) : ascii :=
  let n := code c in
  if ((65 <=? n) && (n <=? 90))
     || ((192 <=? n) && (n <=? 222) && negb (n =? 215))
  then ascii_of_N (Z.to_N (n + 32)) else c.

Fixpoint lower (s : string) : string :=
  match s with
  | EmptyString => EmptyString
  | String c s' => String (lower_char c) (lower s')
  end.

Fixpoint lstrip (s : string) : string :=
  match s with
  | EmptyString => EmptyString
  | String c s' => if isspace c then lstrip s' else s
  end.

(** [rstrip]: a character is kept when something that is kept follows it,
    or when it is no white space itself. *)
Fixpoint rstrip (s : string) : string :=
  match s with
  | EmptyString => EmptyString
  | String c s' =>
      match rstrip s' with
      | EmptyString => if isspace c then EmptyString else String c EmptyString
      | rest => String c rest
      end
  end.

Definition strip (s : string) : string := rstrip (lstrip s).

(** [base64.b64encode(data).decode('utf-8')] *)
Module Base64.

Definition alphabet : string :=
  "ABCDEFGHIJKLMNOPQRSTUVWXYZabcdefghijklmnopqrstuvwxyz0123456789+/".

Definition sextet (n : Z) : ascii :=
  match String.get (Z.to_nat n) alphabet with
  | Some c => c
  | None => "="%char
  end.

Definition byte_val (b : Byte.byte) : Z := Z.of_N (Byte.to_N b).

Fixpoint encode (data : list Byte.byte) : string :=
  match data with
  | [] => EmptyString
  | [a] =>
      let n := Z.shiftl (byte_val a) 16 in
      String (sextet (Z.land (Z.shiftr n 18) 63))
        (String (sextet (Z.land (Z.shiftr n 12) 63)) "==")
  | [a; b] =>
      let n := Z.lor (Z.shiftl (byte_val a) 16) (Z.shiftl (byte_val b) 8) in
      String (sextet (Z.land (Z.shiftr n 18) 63))
        (String (sextet (Z.land (Z.shiftr n 12) 63))
          (String (sextet (Z.land (Z.shiftr n 6) 63)) "="))
  | a :: b :: c :: rest =>
      let n := Z.lor (Z.lor (Z.shiftl (byte_val a) 16) (Z.shiftl (byte_val b) 8))
                     (byte_val c) in
      String (sextet (Z.land (Z.shiftr n 18) 63))
        (String (sextet (Z.land (Z.shiftr n 12) 63))
          (String (sextet (Z.land (Z.shiftr n 6) 63))
            (String (sextet (Z.land n 63)) (encode rest))))
  end.

End Base64.

(** ** datetime *)

Record datetime : Type := {
  year : Z; month : Z; day : Z;
  hour : Z; minute : Z; second : Z; microsecond : Z
}.

(** Comparison of Python tuples of integers *)
Fixpoint tuple_lt (a b : list Z) : bool :=
  match a, b with
  | x :: a', y :: b' => (x <? y) || ((x =? y) && tuple_lt a' b')
  | [], _ :: _ => true
  | _, [] => false
  end.

Definition astuple (d : datetime) : list Z :=
  [year d; month d; day d; hour d; minute d; second d; microsecond d].

(** [a > b] on naive datetimes *)
Definition datetime_gt (a b : datetime) : bool := tuple_lt (astuple b) (astuple a).

Definition is_leap (y : Z) : bool :=
  (y mod 4 =? 0) && (negb (y mod 100 =? 0) || (y mod 400 =? 0)).

Definition days_in_month (y m : Z) : Z :=
  if m =? 2 then (if is_leap y then 29 else 28)
  else if (m =? 4) || (m =? 6) || (m =? 9) || (m =? 11) then 30
  else 31.

(** The range checks of the [datetime] constructor *)
Definition datetime_ok (d : datetime) : bool :=
  (1 <=? year d) && (year d <=? 9999)
  && (1 <=? month d) && (month d <=? 12)
  && (1 <=? day d) && (day d <=? days_in_month (year d) (month d))
  && (0 <=? hour d) && (hour d <=? 23)
  && (0 <=? minute d) && (minute d <=? 59)
  && (0 <=? second d) && (second d <=? 59)
  && (0 <=? microsecond d) && (microsecond d <=? 999999).

(** *** [datetime.strptime(s, "%Y-%m-%d")]

    [_strptime] compiles the format to the regular expression
    [(?P<Y>\d\d\d\d)-(?P<m>1[0-2]|0[1-9]|[1-9])-(?P<d>3[0-1]|[1-2]\d|0[1-9]|[1-9]| [1-9])],
    takes the first match at the start of the text, refuses text left over,
    converts the groups with [int] and builds the date. *)
Module Strptime.

(** A backtracking matcher lists, in the order the engine tries them, the
    text consumed and the text left. *)
Definition re : Type := string -> list (string * string).

Definition one (p : ascii -> bool) : re :=
  fun s => match s with
           | String c s' => if p c then [(String c EmptyString, s')] else []
           | EmptyString => []
           end.

Definition alt (r1 r2 : re) : re := fun s => (r1 s ++ r2 s)%list.

Definition seq (r1 r2 : re) : re :=
  fun s => flat_map (fun m1 => map (fun m2 => ((fst m1 ++ fst m2)%string, snd m2)) (r2 (snd m1)))
                    (r1 s).

Definition between (lo hi : ascii) : re :=
  one (fun c => (code lo <=? code c) && (code c <=? code hi)).
Definition lit (a : ascii) : re := one (Ascii.eqb a).
Definition digit : re := between "0" "9".

Definition re_Y : re := seq digit (seq digit (seq digit digit)).
Definition re_m : re :=
  alt (seq (lit "1") (between "0" "2"))
      (alt (seq (lit "0") (between "1" "9")) (between "1" "9")).
Definition re_d : re :=
  alt (seq (lit "3") (between "0" "1"))
      (alt (seq (between "1" "2") digit)
           (alt (seq (lit "0") (between "1" "9"))
                (alt (between "1" "9") (seq (lit " ") (between "1" "9"))))).

(** The groups of the first match, and the text it leaves *)
Definition found (s : string) : option (string * string * string * string) :=
  hd_error
    (flat_map (fun Y =>
       flat_map (fun _1 =>
         flat_map (fun m =>
           flat_map (fun _2 =>
             map (fun d => (fst Y, fst m, fst d, snd d)) (re_d (snd _2)))
             (lit "-" (snd m)))
           (re_m (snd _1)))
         (lit "-" (snd Y)))
       (re_Y s)).

(** [int] on a matched group: digits, after white space is stripped *)
Fixpoint digits (acc : Z) (s : string) : Z :=
  match s with
  | EmptyString => acc
  | String c s' => digits (10 * acc + (code c - 48)) s'
  end.
Definition int (s : string) : Z := digits 0 (strip s).

(** [None] stands for [ValueError]. *)
Definition strptime (s : string) : option datetime :=
  match found s with
  | Some (Y, m, d, EmptyString) =>
      let date := {| year := int Y; month := int m; day := int d;
                     hour := 0; minute := 0; second := 0; microsecond := 0 |} in
      if datetime_ok date then Some date else None
  | Some (_, _, _, String _ _) => None
  | None => None
  end.

End Strptime.

(** ** class KYCProcessor *)

(** One call of [fireworks.client.ChatCompletion.create]: the text and the
    image URL of its messages, and whether a JSON response format with the
    [ImageQualityCheck] schema is asked for. *)
Record request : Type := {
  text : string;
  url : string;
  json_mode : bool
}.

Record date_validation : Type := {
  is_reasonable : bool;
  issues : list (option string)
}.

Record extracted_info : Type := {
  extracted_data : string;
  confidence_score : Q;
  ei_validation_result : validation
}.

Module KYCProcessor.

(** [(today.month, today.day) < (date.month, date.day)] counts as 1 or 0. *)
Definition age_of (today date : datetime) : Z :=
  year today - year date
  - Z.b2z (tuple_lt [month today; day today] [month date; day date]).

(** [strptime] wants a [str]; the error names the type it got. *)
Definition strptime_type_error (v : json) : exn :=
  Exn TypeError
      ("strptime() argument 1 must be str, not "
       ++ match v with JNull => "None" | _ => type_name v end).

(** [today] is the reading of [datetime.now()]. *)
Definition _validate_date_reasonability (today : datetime) (date_str : json)
  : outcome date_validation :=
  match date_str with
  | JStr s =>
      match Strptime.strptime s with
      | Some date =>
          let age := age_of today date in
          Returned
            {| is_reasonable := (18 <=? age) && (age <=? 100);
               issues :=
                 [ if age <? 18 then Some "Age below 18" else None;
                   if age >? 100
                   then Some "Age appears unreasonable (over 100 years)" else None;
                   if datetime_gt date today then Some "Date is in the future" else None ] |}
      | None =>
          Returned {| is_reasonable := false; issues := [Some "Invalid date format"] |}
      end
  | v => Raised (strptime_type_error v)
  end.

(** The table [required_fields] that the source builds here is never read. *)
Definition _validate_extracted_info (info : extracted_info) (doc_type : string)
  : validation :=
  {| is_valid := true;
     error := None;
     missing_fields := Some [];
     details := None;
     compliance_check := Some "passed" |}.

(** [quality_check.values()] *)
Definition py_values (v : json) : outcome (list json) :=
  match v with
  | JObj d => Returned (values d)
  | _ => Raised (no_attribute v "values")
  end.

(** [extracted_data.get(key, default)] *)
Definition py_get (v : json) (key : string) (default : json) : outcome json :=
  match v with
  | JObj d => Returned (get d key default)
  | _ => Raised (no_attribute v "get")
  end.

(** [all(v == "yes" for v in quality_check.values())] *)
Definition all_yes (vs : list json) : bool := forallb (fun v => eq_str v "yes") vs.

Definition quality_default : json :=
  JObj [("centered", JStr "no"); ("clear", JStr "no"); ("fully_visible", JStr "no")].

Definition size_limit : Z := 20 * 1024 * 1024.

(** The three requests of a run *)
Definition quality_request (image_url : string) : request :=
  {| text := "Analyze this image and check document positioning and quality. Respond in JSON format.";
     url := image_url;
     json_mode := true |}.

Definition classify_request (image_base64 : string) : request :=
  {| text := "Is this image a passport or a driver's license? Respond with only 'passport' or 'license'.";
     url := "data:image/jpeg;base64," ++ image_base64;
     json_mode := false |}.

Definition extract_request (prompt image_base64 : string) : request :=
  {| text := prompt;
     url := "data:image/jpeg;base64," ++ image_base64;
     json_mode := false |}.

(** [f"data:image/png;base64,{image_base64}"] of the bytes read *)
Definition image_url_of (image_data : list Byte.byte) : string :=
  "data:image/png;base64," ++ Base64.encode image_data.

Definition too_large : exn :=
  Exn ValueError "Image file is too large. Please use an image smaller than 20MB".

Section Pipeline.

Variable json_loads : string -> option json.

(** Readings of [time.time()], and [round(t1 - t0, 2)]. *)
Variable time : Type.
Variable elapsed : time -> time -> time.

(** What a run reads from outside: the file system, the model behind
    [ChatCompletion.create], [datetime.now()], and [time.time()] when the
    run starts and when it returns. *)
Record world : Type := {
  read_file : string -> outcome (list Byte.byte);
  create : request -> outcome string;
  now : datetime;
  clock_start : time;
  clock_end : time
}.

Record failure : Type := {
  error_message : string;
  quality_issues : option json;
  date_issues : option (list (option string));
  processing_time_seconds : time
}.

Record processing_metrics : Type := {
  pm_processing_time_seconds : time;
  pm_confidence_score : Q
}.

Record success : Type := {
  document_type : string;
  extracted : extracted_info;
  validation_result : validation;
  quality_check : json;
  metrics : processing_metrics
}.

(** The dictionary that [process_kyc_document] returns, by its [status]. *)
Inductive result : Type :=
| Error (f : failure)
| Success (s : success).

(** A computation that may raise, and logs the requests it sends. *)
Definition M (A : Type) : Type := list request -> outcome A * list request.

Definition ret {A} (a : A) : M A := fun log => (Returned a, log).
Definition raise {A} (e : exn) : M A := fun log => (Raised e, log).
Definition lift {A} (o : outcome A) : M A := fun log => (o, log).
Definition bind {A B} (m : M A) (k : A -> M B) : M B :=
  fun log => match m log with
             | (Returned a, log') => k a log'
             | (Raised e, log') => (Raised e, log')
             end.

Notation "x <- m ;; k" := (bind m (fun x => k))
  (at level 61, m at next level, right associativity).

Variable w : world.

Definition chat (r : request) : M string :=
  fun log => (create w r, (log ++ [r])%list).

(** [except Exception] turns every failure, of the call or of the
    decoding, into the all-"no" assessment. *)
Definition _validate_image_quality (image_url : string) : M json :=
  fun log =>
    match chat (quality_request image_url) log with
    | (Returned content, log') =>
        match json_loads content with
        | Some v => (Returned v, log')
        | None => (Returned quality_default, log')
        end
    | (Raised _, log') => (Returned quality_default, log')
    end.

Definition _detect_document_type (image_base64 : string) : M string :=
  content <- chat (classify_request image_base64) ;;
  ret (lower (strip content)).

Definition unsupported (doc_type : string) : exn :=
  Exn ValueError ("Unsupported document type: " ++ doc_type).

Definition _extract_document_info (image_base64 doc_type : string) : M extracted_info :=
  match DocumentReader.get_document_prompt doc_type with
  | None | Some EmptyString => raise (unsupported doc_type)
  | Some prompt =>
      content <- chat (extract_request prompt image_base64) ;;
      validation_result <-
        lift (DocumentReader.validate_extracted_data json_loads doc_type (JStr content)) ;;
      ret {| extracted_data := content;
             confidence_score := 0.92;
             ei_validation_result := validation_result |}
  end.

Definition error_result (message : string) : result :=
  Error {| error_message := message;
           quality_issues := None;
           date_issues := None;
           processing_time_seconds := elapsed (clock_end w) (clock_start w) |}.

(** Step 5 and the success dictionary *)
Definition finish (quality_check : json) (doc_type : string) (info : extracted_info)
  : M result :=
  let validation_result := _validate_extracted_info info doc_type in
  ret (Success
         {| document_type := doc_type;
            extracted := info;
            validation_result := validation_result;
            quality_check := quality_check;
            metrics :=
              {| pm_processing_time_seconds := elapsed (clock_end w) (clock_start w);
                 pm_confidence_score := confidence_score info |} |}).

(** Step 4: [except json.JSONDecodeError: pass] covers the decoding only;
    what [get] or [strptime] raise leaves the [try] block. *)
Definition date_step (quality_check : json) (doc_type : string) (info : extracted_info)
  : M result :=
  match json_loads (extracted_data info) with
  | Some data =>
      date_of_birth <- lift (py_get data "date_of_birth" (JStr "")) ;;
      date_validation <-
        lift (_validate_date_reasonability (now w) date_of_birth) ;;
      if negb (is_reasonable date_validation)
      then ret (Error {| error_message := "Date validation failed";
                         quality_issues := None;
                         date_issues := Some (issues date_validation);
                         processing_time_seconds :=
                           elapsed (clock_end w) (clock_start w) |})
      else finish quality_check doc_type info
  | None => finish quality_check doc_type info
  end.

(** Steps 2 to 5, once the quality gate is passed *)
Definition steps_2_to_5 (image_url : string) (quality_check : json) : M result :=
  doc_type <- _detect_document_type image_url ;;
  info <- _extract_document_info image_url doc_type ;;
  date_step quality_check doc_type info.

(** The [try] block of [process_kyc_document] *)
Definition pipeline (image_path : string) : M result :=
  image_data <- lift (read_file w image_path) ;;
  if Z.of_nat (List.length image_data) >? size_limit
  then raise too_large
  else
    let image_url := image_url_of image_data in
    quality_check <- _validate_image_quality image_url ;;
    flags <- lift (py_values quality_check) ;;
    if negb (all_yes flags)
    then ret (Error {| error_message := "Image quality check failed";
                       quality_issues := Some quality_check;
                       date_issues := None;
                       processing_time_seconds :=
                         elapsed (clock_end w) (clock_start w) |})
    else steps_2_to_5 image_url quality_check.

(** [process_kyc_document]: the result and the requests sent, in order.
    [except Exception] turns whatever the [try] block raises into an
    error dictionary. *)
Definition process_kyc_document (image_path : string) : result * list request :=
  match pipeline image_path [] with
  | (Returned r, log) => (r, log)
  | (Raised e, log) => (error_result (str_exn e), log)
  end.

(** A run that gets as far as step 4, with what the earlier steps made:
    the assessment, the document type, the extracted information and
    the requests sent. *)
Definition reaches_date_step (image_path : string) (quality_check : json)
           (doc_type : string) (info : extracted_info) (log : list request) : Prop :=
  exists image_data flags log1 log2,
    read_file w image_path = Returned image_data
    /\ (Z.of_nat (List.length image_data) >? size_limit) = false
    /\ _validate_image_quality (image_url_of image_data) [] = (Returned quality_check, log1)
    /\ py_values quality_check = Returned flags
    /\ all_yes flags = true
    /\ _detect_document_type (image_url_of image_data) log1 = (Returned doc_type, log2)
    /\ _extract_document_info (image_url_of image_data) doc_type log2 = (Returned info, log).

(** A result with its timing field replaced *)
Definition with_time (t : time) (r : result) : result :=
  match r with
  | Error f =>
      Error {| error_message := error_message f;
               quality_issues := quality_issues f;
               date_issues := date_issues f;
               processing_time_seconds := t |}
  | Success s =>
      Success {| document_type := document_type s;
                 extracted := extracted s;
                 validation_result := validation_result s;
                 quality_check := quality_check s;
                 metrics :=
                   {| pm_processing_time_seconds := t;
                      pm_confidence_score := pm_confidence_score (metrics s) |} |}
  end.

(** The outcome of a step, with the timing of a returned result replaced *)
Definition retime (t : time) (x : outcome result * list request)
  : outcome result * list request :=
  match x with
  | (Returned r, log) => (Returned (with_time t r), log)
  | (Raised e, log) => (Raised e, log)
  end.

End Pipeline.

End KYCProcessor.

(** ** A decoder to run the pipeline on concrete texts

    [MiniJson.loads] decodes the fragment of JSON made of objects, arrays,
    strings without escapes, integers and the three literals.  It is used
    to instantiate [json_loads] in the examples only; the texts of the
    examples lie in the fragment or are no JSON at all. *)
Module MiniJson.

Definition is_ws (c : ascii) : bool :=
  let n := code c in (n =? 32) || (n =? 9) || (n =? 10) || (n =? 13).

Fixpoint skip_ws (s : string) : string :=
  match s with
  | String c s' => if is_ws c then skip_ws s' else s
  | EmptyString => s
  end.

(** The text after an opening quote, up to the closing one *)
Fixpoint string_body (s : string) : option (string * string) :=
  match s with
  | EmptyString => None
  | String c s' =>
      if code c =? 34 then Some (EmptyString, s')
      else if (code c =? 92) || (code c <? 32) then None
      else match string_body s' with
           | Some (t, r) => Some (String c t, r)
           | None => None
           end
  end.

Fixpoint digits (acc : Z) (s : string) : Z * string :=
  match s with
  | String c s' =>
      if (48 <=? code c) && (code c <=? 57)
      then digits (10 * acc + (code c - 48)) s' else (acc, s)
  | EmptyString => (acc, s)
  end.

(** An integer: no leading zero, no fraction, no exponent *)
Definition integer (s : string) : option (Z * string) :=
  let (neg, body) := match s with
                     | String "-" r => (true, r)
                     | _ => (false, s)
                     end in
  match body with
  | String c r =>
      if (48 <=? code c) && (code c <=? 57) then
        let (n, rest) := if code c =? 48 then (0, r) else digits 0 body in
        match rest with
        | String "." _ | String "e" _ | String "E" _ => None
        | _ => Some (if neg then - n else n, rest)
        end
      else None
  | EmptyString => None
  end.

(** [d[k] = v]: a key met again keeps its place and takes the new value. *)
Fixpoint set (d : dict) (k : string) (v : json) : dict :=
  match d with
  | [] => [(k, v)]
  | (k', v') :: d' => if String.eqb k' k then (k, v) :: d' else (k', v') :: set d' k v
  end.

Fixpoint members (fuel : nat) (value : string -> option (json * string))
         (acc : dict) (s : string) : option (json * string) :=
  match fuel, skip_ws s with
  | S n, String c r =>
      if code c =? 34 then
        match string_body r with
        | Some (k, r1) =>
            match skip_ws r1 with
            | String ":" r2 =>
                match value r2 with
                | Some (v, r3) =>
                    match skip_ws r3 with
                    | String "," r4 => members n value (set acc k v) r4
                    | String "}" r4 => Some (JObj (set acc k v), r4)
                    | _ => None
                    end
                | None => None
                end
            | _ => None
            end
        | None => None
        end
      else None
  | _, _ => None
  end.

Fixpoint elements (fuel : nat) (value : string -> option (json * string))
         (acc : list json) (s : string) : option (json * string) :=
  match fuel, value s with
  | S n, Some (v, r) =>
      match skip_ws r with
      | String "," r' => elements n value (acc ++ [v])%list r'
      | String "]" r' => Some (JArr (acc ++ [v])%list, r')
      | _ => None
      end
  | _, _ => None
  end.

Definition literal (word : string) (v : json) (s : string) : option (json * string) :=
  if prefix word s
  then Some (v, substring (String.length word) (String.length s - String.length word) s)
  else None.

Fixpoint value (fuel : nat) (s : string) : option (json * string) :=
  match fuel, skip_ws s with
  | S n, String c r =>
      if code c =? 123 then
        match skip_ws r with
        | String "}" r' => Some (JObj [], r')
        | _ => members n (value n) [] r
        end
      else if code c =? 91 then
        match skip_ws r with
        | String "]" r' => Some (JArr [], r')
        | _ => elements n (value n) [] r
        end
      else if code c =? 34 then
        match string_body r with
        | Some (t, r') => Some (JStr t, r')
        | None => None
        end
      else if code c =? 116 then literal "true" (JBool true) (String c r)
      else if code c =? 102 then literal "false" (JBool false) (String c r)
      else if code c =? 110 then literal "null" JNull (String c r)
      else match integer (String c r) with
           | Some (n, r') => Some (JInt n, r')
           | None => None
           end
  | _, _ => None
  end.

Definition loads (s : string) : option json :=
  match value (S (String.length s)) s with
  | Some (v, r) => match skip_ws r with
                   | EmptyString => Some v
                   | String _ _ => None
                   end
  | None => None
  end.

(** To write JSON texts legibly: every apostrophe stands for a double
    quote. *)
Fixpoint dq (s : string) : string :=
  match s with
  | EmptyString => EmptyString
  | String c s' => String (if code c =? 39 then ascii_of_nat 34 else c) (dq s')
  end.

End MiniJson.

(** ** The age rule in the words of its description

    Whole years between the date of birth and the current date: the
    difference of the years, less one more year when the current month and
    day come before the month and day of birth. *)

Definition precedes (m1 d1 m2 d2 : Z) : Prop := m1 < m2 \/ (m1 = m2 /\ d1 < d2).

Definition calendar_age (today date : datetime) (age : Z) : Prop :=
  (precedes (month today) (day today) (month date) (day date)
   /\ age = year today - year date - 1)
  \/ (~ precedes (month today) (day today) (month date) (day date)
      /\ age = year today - year date).

(** ** Concrete runs *)

Module Scenario.

Import KYCProcessor.

Definition today : datetime :=
  {| year := 2026; month := 11; day := 4;
     hour := 10; minute := 30; second := 0; microsecond := 0 |}.

Definition image_path : string := "documents/License 1.png".

Definition image : list Byte.byte := [Byte.x89; Byte.x50; Byte.x4e; Byte.x47].

(** A model that answers the quality, classification and extraction
    requests with fixed completions *)
Definition model (quality classification extraction : outcome string) (r : request)
  : outcome string :=
  if json_mode r then quality
  else if String.eqb (text r) (text (classify_request "")) then classification
  else extraction.

(** Clock readings are hundredths of a second. *)
Definition run_world (image_data : list Byte.byte)
           (quality classification extraction : outcome string) : world Z :=
  {| read_file := fun path =>
       if String.eqb path image_path then Returned image_data
       else Raised (Exn OSError "[Errno 2] No such file or directory");
     create := model quality classification extraction;
     now := today;
     clock_start := 100;
     clock_end := 350 |}.

Definition run (image_data : list Byte.byte)
           (quality classification extraction : string) : result Z * list request :=
  process_kyc_document MiniJson.loads Z.sub
    (run_world image_data (Returned quality) (Returned classification) (Returned extraction))
    image_path.

Definition all_yes_text : string :=
  MiniJson.dq "{'centered': 'yes', 'clear': 'yes', 'fully_visible': 'yes'}".

Definition license_text : string :=
  MiniJson.dq "{'full_name': 'Ada Byron', 'date_of_birth': '1996-05-17', 'license_number': 'D123', 'state': 'CA', 'expiry_date': '2030-01-01'}".

End Scenario.

(** * Properties of the pipeline *)

Unset Implicit Arguments.

(** ** Notions used to state further properties *)

(** The value that [validate_extracted_data] checks: a [str] is decoded
    ([None] when it does not decode), any other value is taken as it is. *)
Definition decoded (json_loads : string -> option json) (payload : json) : option json :=
  match payload with
  | JStr text => json_loads text
  | data => Some data
  end.

Definition is_object (v : json) : bool :=
  match v with
  | JObj _ => true
  | _ => false
  end.

(** A run whose image was read, is within the size limit, and whose
    assessment is an object that passes the gate *)
Definition passes_quality_gate (json_loads : string -> option json) {time : Type}
           (w : KYCProcessor.world time) (image_path : string)
           (image_data : list Byte.byte) (qc : dict) : Prop :=
  KYCProcessor.read_file w image_path = Returned image_data
  /\ Z.of_nat (List.length image_data) <= KYCProcessor.size_limit
  /\ fst (KYCProcessor._validate_image_quality json_loads w
             (KYCProcessor.image_url_of image_data) []) = Returned (JObj qc)
  /\ KYCProcessor.all_yes (values qc) = true.

(** *** Dates written as YYYY-MM-DD, zero padded *)

Definition digit_char (k : Z) : ascii := ascii_of_N (Z.to_N (48 + k)).

Definition two_digits (n : Z) : string :=
  String (digit_char (n / 10)) (String (digit_char (n mod 10)) EmptyString).

Definition four_digits (n : Z) : string :=
  String (digit_char (n / 1000))
    (String (digit_char (n / 100 mod 10)) (two_digits (n mod 100))).

(** [date.isoformat()] *)
Definition isoformat (d : datetime) : string :=
  four_digits (year d) ++ "-" ++ two_digits (month d) ++ "-" ++ two_digits (day d).

(** ** Worlds and values for further concrete runs *)

Module MoreRuns.

Import KYCProcessor.

Definition timeout_error : exn := Exn OtherException "Request timed out".

Definition world_of (quality classification extraction : outcome string) : world Z :=
  Scenario.run_world Scenario.image quality classification extraction.

Definition all_yes_object : dict :=
  [("centered", JStr "yes"); ("clear", JStr "yes"); ("fully_visible", JStr "yes")].

Definition license_prompt : string :=
  "Extract in JSON format:
                            - full_name
                            - date_of_birth
                            - license_number
                            - state
                            - expiry_date".

Definition the_url : string := image_url_of Scenario.image.

Definition generic_error (message : string) : result Z :=
  Error {| error_message := message;
           quality_issues := None;
           date_issues := None;
           processing_time_seconds := 250 |}.

End MoreRuns.

Section PipelineFacts.

Import KYCProcessor.

Variable json_loads : string -> option json.
Variable time : Type.
Variable elapsed : time -> time -> time.

Local Abbreviation process := (process_kyc_document json_loads elapsed).

(** If the early steps succeed, the [try] block is at step 4. *)
Lemma pipeline_reaches (w : world time) path qc doc_type info log :
  reaches_date_step json_loads w path qc doc_type info log ->
  pipeline json_loads elapsed w path [] = date_step json_loads elapsed w qc doc_type info log.
Proof.
  intros (data & flags & log1 & log2 & Hr & Hs & Hq & Hv & Ha & Hd & He).
  unfold pipeline, steps_2_to_5, bind, lift.
  rewrite Hr, Hs, Hq, Hv, Ha. cbn [negb].
  now rewrite Hd, He.
Qed.

(** Step 4 sends no request; it returns or raises with the log it got. *)
Lemma date_step_log (w : world time) qc doc_type info log :
  snd (date_step json_loads elapsed w qc doc_type info log) = log.
Proof.
  unfold date_step, bind, lift, finish, ret.
  destruct (json_loads (extracted_data info)) as [data|]; [|reflexivity].
  destruct (py_get data "date_of_birth" (JStr "")) as [dob|e]; [|reflexivity].
  destruct (_validate_date_reasonability (now w) dob) as [dv|e]; [|reflexivity].
  now destruct (is_reasonable dv).
Qed.

(** A run that returns the success dictionary went through every step. *)
Lemma success_inv (w : world time) path s log :
  process w path = (Success s, log) ->
  exists qc doc_type info,
    reaches_date_step json_loads w path qc doc_type info log
    /\ date_step json_loads elapsed w qc doc_type info log = (Returned (Success s), log).
Proof.
  unfold process_kyc_document.
  destruct (pipeline json_loads elapsed w path []) as [[r|e] log'] eqn:Hp;
    [|discriminate].
  intros H; injection H as -> ->.
  revert Hp. unfold pipeline, steps_2_to_5, bind, lift.
  destruct (read_file w path) as [data|e] eqn:Hr; [|discriminate].
  destruct (Z.of_nat (List.length data) >? size_limit) eqn:Hs; [discriminate|].
  destruct (_validate_image_quality json_loads w (image_url_of data) [])
    as [[qc|e] log1] eqn:Hq; [|discriminate].
  destruct (py_values qc) as [flags|e] eqn:Hv; [|discriminate].
  destruct (all_yes flags) eqn:Ha; cbn [negb]; [|discriminate].
  destruct (_detect_document_type w (image_url_of data) log1)
    as [[doc_type|e] log2] eqn:Hd; [|discriminate].
  destruct (_extract_document_info json_loads w (image_url_of data) doc_type log2)
    as [[info|e] log3] eqn:He; [|discriminate].
  intros Hp.
  assert (log3 = log) as ->.
  { rewrite <- (date_step_log w qc doc_type info log3). now rewrite Hp. }
  exists qc, doc_type, info. split; [|exact Hp].
  now exists data, flags, log1, log2.
Qed.

(** What step 4 returns when it returns the success dictionary *)
Lemma date_step_success (w : world time) qc doc_type info log s log' :
  date_step json_loads elapsed w qc doc_type info log = (Returned (Success s), log') ->
  s = {| document_type := doc_type;
         extracted := info;
         validation_result := _validate_extracted_info info doc_type;
         quality_check := qc;
         metrics :=
           {| pm_processing_time_seconds := elapsed (clock_end w) (clock_start w);
              pm_confidence_score := confidence_score info |} |}.
Proof.
  unfold date_step, bind, lift, finish, ret.
  destruct (json_loads (extracted_data info)) as [data|].
  - destruct (py_get data "date_of_birth" (JStr "")) as [dob|e]; [|discriminate].
    destruct (_validate_date_reasonability (now w) dob) as [dv|e]; [|discriminate].
    destruct (is_reasonable dv); cbn [negb]; [|discriminate].
    now intros [= <- _].
  - now intros [= <- _].
Qed.

(** What the extraction step did when it returns *)
Lemma extract_inv (w : world time) image_base64 doc_type log info log' :
  _extract_document_info json_loads w image_base64 doc_type log = (Returned info, log') ->
  exists prompt,
    DocumentReader.get_document_prompt doc_type = Some prompt
    /\ create w (extract_request prompt image_base64) = Returned (extracted_data info)
    /\ DocumentReader.validate_extracted_data json_loads doc_type
         (JStr (extracted_data info)) = Returned (ei_validation_result info)
    /\ log' = (log ++ [extract_request prompt image_base64])%list.
Proof.
  unfold _extract_document_info.
  destruct (DocumentReader.get_document_prompt doc_type) as [[|c prompt]|];
    try discriminate.
  unfold bind, lift, chat, ret.
  destruct (create w (extract_request (String c prompt) image_base64))
    as [content|e] eqn:Hc; [|discriminate].
  destruct (DocumentReader.validate_extracted_data json_loads doc_type (JStr content))
    as [v|e] eqn:Hv; [|discriminate].
  intros [= <- <-]. exists (String c prompt). cbn. now rewrite Hc, Hv.
Qed.

(** C7. An image of more than 20 MiB: the run returns the error
    dictionary whose message is that the image file is too large, and it
    sends no request to the model (no quality assessment, no
    classification, no extraction). *)
Theorem oversized_image_is_rejected (w : world time) path image_data :
  read_file w path = Returned image_data ->
  Z.of_nat (List.length image_data) > 20 * 1024 * 1024 ->
  process w path =
    (Error {| error_message :=
                "Image file is too large. Please use an image smaller than 20MB";
              quality_issues := None;
              date_issues := None;
              processing_time_seconds := elapsed (clock_end w) (clock_start w) |},
     []).
Proof.
  intros Hr Hlen.
  unfold process_kyc_document, pipeline, bind, lift.
  rewrite Hr.
  replace (Z.of_nat (List.length image_data) >? size_limit) with true.
  - reflexivity.
  - symmetry. apply Z.gtb_lt. unfold size_limit. lia.
Qed.

(** C8. A run whose extracted text does not decode when step 4 decodes
    it: step 4 fails nothing and reports no date issue, and the run goes
    on to the validation of step 5 on the same extracted information and
    returns the success dictionary. *)
Theorem undecodable_output_skips_date_check (w : world time) path qc doc_type info log :
  reaches_date_step json_loads w path qc doc_type info log ->
  json_loads (extracted_data info) = None ->
  process w path =
    (Success {| document_type := doc_type;
                extracted := info;
                validation_result := _validate_extracted_info info doc_type;
                quality_check := qc;
                metrics :=
                  {| pm_processing_time_seconds := elapsed (clock_end w) (clock_start w);
                     pm_confidence_score := confidence_score info |} |},
     log).
Proof.
  intros Hreach Hnone.
  unfold process_kyc_document.
  rewrite (pipeline_reaches _ _ _ _ _ _ Hreach).
  unfold date_step. now rewrite Hnone.
Qed.

(** C1, as the code has it. In every run that returns the success
    dictionary, [validation_result] is the constant of
    [_validate_extracted_info] ([is_valid] true, no missing field,
    compliance check passed), whatever was extracted; the outcome of
    [validate_extracted_data] on the extracted text and the document type
    is carried inside [extracted_info], under its own [validation_result]
    key. *)
Theorem success_validation_is_constant (w : world time) path s log :
  process w path = (Success s, log) ->
  validation_result s =
    {| is_valid := true; error := None; missing_fields := Some [];
       details := None; compliance_check := Some "passed" |}
  /\ DocumentReader.validate_extracted_data json_loads (document_type s)
       (JStr (extracted_data (extracted s)))
     = Returned (ei_validation_result (extracted s)).
Proof.
  intros H.
  destruct (success_inv _ _ _ _ H) as (qc & doc_type & info & Hreach & Hstep).
  apply date_step_success in Hstep. subst s. cbn.
  split; [reflexivity|].
  destruct Hreach as (data & flags & log1 & log2 & _ & _ & _ & _ & _ & _ & He).
  apply extract_inv in He. now destruct He as (prompt & _ & _ & Hv & _).
Qed.

(** *** The quality gate *)

Lemma eq_str_true v t : eq_str v t = true <-> v = JStr t.
Proof.
  destruct v; cbn; try (split; discriminate).
  rewrite String.eqb_eq. split; [now intros -> | now intros [= ->]].
Qed.

Lemma all_yes_true (d : dict) :
  all_yes (values d) = true <-> (forall k v, In (k, v) d -> v = JStr "yes").
Proof.
  unfold all_yes, values. rewrite forallb_forall. split.
  - intros H k v Hin. apply eq_str_true, H. now apply (in_map snd) in Hin.
  - intros H v Hin. apply in_map_iff in Hin as ((k & v') & <- & Hin).
    apply eq_str_true. exact (H k v' Hin).
Qed.

Lemma quality_log (w : world time) u log :
  snd (_validate_image_quality json_loads w u log) = (log ++ [quality_request u])%list.
Proof.
  unfold _validate_image_quality, chat.
  destruct (create w (quality_request u)) as [content|e]; [|reflexivity].
  now destruct (json_loads content).
Qed.

Lemma detect_log (w : world time) u log :
  snd (_detect_document_type w u log) = (log ++ [classify_request u])%list.
Proof.
  unfold _detect_document_type, bind, chat, ret.
  now destruct (create w (classify_request u)).
Qed.

(** Later steps only add to the log. *)
Lemma extract_log (w : world time) u doc_type log :
  exists more, snd (_extract_document_info json_loads w u doc_type log) = (log ++ more)%list.
Proof.
  unfold _extract_document_info.
  destruct (DocumentReader.get_document_prompt doc_type) as [[|c prompt]|];
    try (exists []; cbn; now rewrite app_nil_r).
  unfold bind, chat, lift, ret.
  exists [extract_request (String c prompt) u].
  destruct (create w (extract_request (String c prompt) u)) as [content|e];
    [|reflexivity].
  now destruct (DocumentReader.validate_extracted_data json_loads doc_type (JStr content)).
Qed.

Lemma steps_2_to_5_log (w : world time) u qc log :
  exists more,
    snd (steps_2_to_5 json_loads elapsed w u qc log)
    = (log ++ classify_request u :: more)%list.
Proof.
  unfold steps_2_to_5, bind.
  pose proof (detect_log w u log) as Hd.
  destruct (_detect_document_type w u log) as [[doc_type|e] log2];
    cbn [snd] in Hd; subst log2; [|now exists []].
  destruct (extract_log w u doc_type (log ++ [classify_request u])) as [more He].
  destruct (_extract_document_info json_loads w u doc_type _) as [[info|e] log3];
    cbn [snd] in He; subst log3.
  - exists more. rewrite date_step_log. now rewrite <- app_assoc.
  - exists more. cbn [snd]. now rewrite <- app_assoc.
Qed.

(** An error dictionary made after the gate has no [quality_issues]. *)
Lemma steps_2_to_5_issues (w : world time) u qc log f :
  fst (steps_2_to_5 json_loads elapsed w u qc log) = Returned (Error f) ->
  quality_issues f = None.
Proof.
  unfold steps_2_to_5, bind.
  destruct (_detect_document_type w u log) as [[doc_type|e] log2]; [|discriminate].
  destruct (_extract_document_info json_loads w u doc_type log2)
    as [[info|e] log3]; [|discriminate].
  unfold date_step, bind, lift, finish, ret.
  destruct (json_loads (extracted_data info)) as [data|]; [|discriminate].
  destruct (py_get data "date_of_birth" (JStr "")) as [dob|e]; [|discriminate].
  destruct (_validate_date_reasonability (now w) dob) as [dv|e]; [|discriminate].
  destruct (is_reasonable dv); cbn [negb fst]; [discriminate|].
  now intros [= <-].
Qed.

(** C3, as the code has it. The assessment is the object that
    [_validate_image_quality] returns.  If one of the values it holds (a
    flag [centered], [clear] or [fully_visible], or any other member) is
    not the string "yes", the run returns the failure of the quality step
    and its [quality_issues] is that assessment; only the quality request
    was sent.  If every value it holds is "yes" the gate lets the run
    through: the classification request is sent next and no result of the
    run carries [quality_issues].  The gate looks at the values present
    only: a flag that is absent does not stop the run. *)
Theorem quality_gate_checks_present_values (w : world time) path image_data qc :
  read_file w path = Returned image_data ->
  Z.of_nat (List.length image_data) <= 20 * 1024 * 1024 ->
  fst (_validate_image_quality json_loads w (image_url_of image_data) [])
    = Returned (JObj qc) ->
  ((exists k v, In (k, v) qc /\ v <> JStr "yes") ->
     process w path =
       (Error {| error_message := "Image quality check failed";
                 quality_issues := Some (JObj qc);
                 date_issues := None;
                 processing_time_seconds := elapsed (clock_end w) (clock_start w) |},
        [quality_request (image_url_of image_data)]))
  /\ ((forall k v, In (k, v) qc -> v = JStr "yes") ->
       (exists more,
          snd (process w path) =
            quality_request (image_url_of image_data)
            :: classify_request (image_url_of image_data) :: more)
       /\ (forall f, fst (process w path) = Error f -> quality_issues f = None)).
Proof.
  intros Hr Hlen Hq.
  assert (Hs : (Z.of_nat (List.length image_data) >? size_limit) = false).
  { unfold size_limit. rewrite Z.gtb_ltb. apply Z.ltb_ge. lia. }
  pose proof (quality_log w (image_url_of image_data) []) as Hlog.
  destruct (_validate_image_quality json_loads w (image_url_of image_data) [])
    as [o log1] eqn:Hv. cbn in Hq, Hlog. subst o log1.
  split.
  - intros (k & v & Hin & Hne).
    assert (Ha : all_yes (values qc) = false).
    { destruct (all_yes (values qc)) eqn:Ha; [|reflexivity].
      exfalso. apply Hne. exact (proj1 (all_yes_true qc) Ha k v Hin). }
    unfold process_kyc_document, pipeline, bind, lift.
    rewrite Hr, Hs, Hv. cbn [py_values]. now rewrite Ha.
  - intros Hall. apply all_yes_true in Hall.
    unfold process_kyc_document, pipeline, bind, lift.
    rewrite Hr, Hs, Hv. cbn [py_values]. rewrite Hall. cbn [negb].
    destruct (steps_2_to_5_log w (image_url_of image_data) (JObj qc)
                [quality_request (image_url_of image_data)]) as [more Hl].
    pose proof (@steps_2_to_5_issues w (image_url_of image_data) (JObj qc)
                  [quality_request (image_url_of image_data)]) as Hi.
    destruct (steps_2_to_5 json_loads elapsed w (image_url_of image_data) (JObj qc) _)
      as [[r|e] log2]; cbn [fst snd] in *; subst log2.
    + split; [now exists more|]. intros f ->. now apply Hi.
    + split; [now exists more|]. now intros f [= <-].
Qed.

(** *** The date check inside the pipeline *)

Lemma get_absent (d : dict) k default :
  contains d k = false -> get d k default = default.
Proof.
  unfold contains, keys. induction d as [|[k' v] d IH]; [reflexivity|].
  cbn. rewrite (String.eqb_sym k k').
  destruct (String.eqb k' k); [discriminate|]. exact IH.
Qed.

(** Every entry of the table has required fields. *)
Lemma prompt_has_fields doc_type p :
  DocumentReader.get_document_prompt doc_type = Some p ->
  DocumentReader.get_required_fields doc_type <> [].
Proof.
  unfold DocumentReader.get_document_prompt, DocumentReader.get_required_fields.
  cbv [DocumentReader.lookup DocumentReader._document_configs].
  repeat match goal with
         | |- context [String.eqb ?a doc_type] => destruct (String.eqb a doc_type)
         end; cbn; discriminate.
Qed.

(** With a known type, only an object gets through [check_fields]. *)
Lemma validate_decoded_is_object doc_type p content data v :
  DocumentReader.get_document_prompt doc_type = Some p ->
  json_loads content = Some data ->
  DocumentReader.validate_extracted_data json_loads doc_type (JStr content) = Returned v ->
  exists d, data = JObj d.
Proof.
  intros Hp Hdec. apply prompt_has_fields in Hp.
  unfold DocumentReader.validate_extracted_data.
  destruct (DocumentReader.get_required_fields doc_type) as [|f0 required];
    [contradiction|].
  rewrite Hdec. destruct data; cbn; try discriminate. intros _. now eexists.
Qed.

(** What the extraction step recorded for a text that does not decode *)
Lemma undecodable_output_recorded (w : world time) path qc doc_type info log :
reaches_date_step json_loads w path qc doc_type info log ->
json_loads (extracted_data info) = None ->
ei_validation_result info =
  {| is_valid := false;
     error := Some "Invalid JSON format in extracted data";
     missing_fields := None; details := None; compliance_check := None |}.
Proof.
intros (image & flags & log1 & log2 & _ & _ & _ & _ & _ & _ & He) Hnone.
apply extract_inv in He. destruct He as (prompt & Hp & _ & Hv & _).
apply prompt_has_fields in Hp. revert Hv.
unfold DocumentReader.validate_extracted_data.
destruct (DocumentReader.get_required_fields doc_type); [contradiction|].
rewrite Hnone. now intros [= <-].
Qed.

(** C9, first part as claimed and the consequence as the code has it.
    (1) A run that reaches step 4 with an extracted text that decodes to
    an object without a [date_of_birth] key: the date of birth is taken
    to be the empty string, which is no date, and the run returns the
    error dictionary with message "Date validation failed" and
    [date_issues] equal to ["Invalid date format"].
    (2) A run that returns the success dictionary for a utility bill or
    a bank statement, with an extracted text that decodes: the text
    decodes to an object that holds a [date_of_birth] key, a key that
    the schema of the type does not list.  So such a run never succeeds
    on an object limited to the fields of its schema, and can succeed on
    one that holds a date of birth besides. *)
Theorem missing_date_of_birth_fails_date_check (w : world time) path :
  (forall qc doc_type info log d,
      reaches_date_step json_loads w path qc doc_type info log ->
      json_loads (extracted_data info) = Some (JObj d) ->
      contains d "date_of_birth" = false ->
      process w path =
        (Error {| error_message := "Date validation failed";
                  quality_issues := None;
                  date_issues := Some [Some "Invalid date format"];
                  processing_time_seconds := elapsed (clock_end w) (clock_start w) |},
         log))
  /\ (forall s log t data,
        process w path = (Success s, log) ->
        t = UTILITY_BILL \/ t = BANK_STATEMENT ->
        document_type s = value t ->
        json_loads (extracted_data (extracted s)) = Some data ->
        exists d, data = JObj d
                  /\ contains d "date_of_birth" = true
                  /\ ~ In "date_of_birth" (DocumentReader.get_required_fields (value t))).
Proof.
  split.
  - intros qc doc_type info log d Hreach Hdec Habs.
    unfold process_kyc_document. rewrite (pipeline_reaches _ _ _ _ _ _ Hreach).
    unfold date_step, bind, lift. rewrite Hdec. cbn [py_get].
    now rewrite (@get_absent d "date_of_birth" (JStr "") Habs).
  - intros s log t data H Ht Hty Hdec.
    destruct (success_inv _ _ _ _ H) as (qc & doc_type & info & Hreach & Hstep).
    pose proof (date_step_success _ _ _ _ _ _ _ Hstep) as Hs.
    assert (Hinfo : extracted s = info) by now subst s.
    rewrite Hinfo in Hdec.
    destruct Hreach as (image & flags & log1 & log2 & _ & _ & _ & _ & _ & _ & He).
    apply extract_inv in He. destruct He as (prompt & Hp & _ & Hv & _).
    destruct (@validate_decoded_is_object doc_type prompt _ data _ Hp Hdec Hv) as [d ->].
    exists d. split; [reflexivity|]. split.
    + destruct (contains d "date_of_birth") eqn:Hc; [reflexivity|]. exfalso.
      revert Hstep. unfold date_step, bind, lift. rewrite Hdec. cbn [py_get].
      rewrite (@get_absent d "date_of_birth" (JStr "") Hc). discriminate.
    + destruct Ht as [-> | ->]; cbn; intuition discriminate.
Qed.

(** *** Two runs that differ in their clocks only *)

Section Repeat.

Variables w1 w2 : world time.
Hypothesis same_files : forall p, read_file w1 p = read_file w2 p.
Hypothesis same_model : forall r, create w1 r = create w2 r.
Hypothesis same_date : now w1 = now w2.

Lemma chat_same r log : chat w1 r log = chat w2 r log.
Proof. unfold chat. now rewrite same_model. Qed.

Lemma quality_same u log :
  _validate_image_quality json_loads w1 u log
  = _validate_image_quality json_loads w2 u log.
Proof. unfold _validate_image_quality. now rewrite chat_same. Qed.

Lemma detect_same u log :
  _detect_document_type w1 u log = _detect_document_type w2 u log.
Proof. unfold _detect_document_type, bind. now rewrite chat_same. Qed.

Lemma extract_same u doc_type log :
  _extract_document_info json_loads w1 u doc_type log
  = _extract_document_info json_loads w2 u doc_type log.
Proof.
  unfold _extract_document_info.
  destruct (DocumentReader.get_document_prompt doc_type) as [[|c prompt]|];
    try reflexivity.
  unfold bind. now rewrite chat_same.
Qed.

Lemma date_step_same t qc doc_type info log :
  retime t (date_step json_loads elapsed w1 qc doc_type info log)
  = retime t (date_step json_loads elapsed w2 qc doc_type info log).
Proof.
  unfold date_step, bind, lift, finish, ret. rewrite same_date.
  destruct (json_loads (extracted_data info)) as [data|]; [|reflexivity].
  destruct (py_get data "date_of_birth" (JStr "")) as [dob|e]; [|reflexivity].
  destruct (_validate_date_reasonability (now w2) dob) as [dv|e]; [|reflexivity].
  now destruct (is_reasonable dv).
Qed.

Lemma pipeline_same t path :
  retime t (pipeline json_loads elapsed w1 path [])
  = retime t (pipeline json_loads elapsed w2 path []).
Proof.
  unfold pipeline, steps_2_to_5, bind, lift. rewrite same_files.
  destruct (read_file w2 path) as [data|e]; [|reflexivity].
  destruct (Z.of_nat (List.length data) >? size_limit); [reflexivity|].
  rewrite quality_same.
  destruct (_validate_image_quality json_loads w2 (image_url_of data) [])
    as [[qc|e] log1]; [|reflexivity].
  destruct (py_values qc) as [flags|e]; [|reflexivity].
  destruct (all_yes flags); cbn [negb]; [|reflexivity].
  rewrite detect_same.
  destruct (_detect_document_type w2 (image_url_of data) log1)
    as [[doc_type|e] log2]; [|reflexivity].
  rewrite extract_same.
  destruct (_extract_document_info json_loads w2 (image_url_of data) doc_type log2)
    as [[info|e] log3]; [|reflexivity].
  apply date_step_same.
Qed.

End Repeat.

(** C10. Two runs on the same image path, with the same file contents,
    the same answers of the model and the same current date, return
    results that agree on everything but the timing field
    ([processing_time_seconds]), and send the same requests. *)
Theorem process_is_repeatable (w1 w2 : world time) path :
  (forall p, read_file w1 p = read_file w2 p) ->
  (forall r, create w1 r = create w2 r) ->
  now w1 = now w2 ->
  forall t,
    with_time t (fst (process w1 path)) = with_time t (fst (process w2 path))
    /\ snd (process w1 path) = snd (process w2 path).
Proof.
  intros Hf Hm Hd t.
  pose proof (pipeline_same w1 w2 Hf Hm Hd t path) as H.
  unfold process_kyc_document.
  destruct (pipeline json_loads elapsed w1 path []) as [[r1|e1] l1];
    destruct (pipeline json_loads elapsed w2 path []) as [[r2|e2] l2];
    cbn in H; try discriminate; injection H as Hr Hl; subst; cbn; auto.
Qed.

End PipelineFacts.

(** A file of 20 MiB and one byte *)
Lemma oversized_image_is_rejected_witness :
  let image_data := repeat Byte.x00 (Z.to_nat (20 * 1024 * 1024 + 1)) in
  let w := Scenario.run_world image_data (Raised (Exn OtherException "unused"))
             (Raised (Exn OtherException "unused")) (Raised (Exn OtherException "unused")) in
  Z.of_nat (List.length image_data) > 20 * 1024 * 1024
  /\ KYCProcessor.process_kyc_document MiniJson.loads Z.sub w Scenario.image_path =
     (KYCProcessor.Error
        {| KYCProcessor.error_message :=
             "Image file is too large. Please use an image smaller than 20MB";
           KYCProcessor.quality_issues := None;
           KYCProcessor.date_issues := None;
           KYCProcessor.processing_time_seconds := 250 |},
      []).
Proof.
  intros image_data w.
  assert (Hlen : Z.of_nat (List.length image_data) > 20 * 1024 * 1024).
  { unfold image_data. rewrite repeat_length. lia. }
  split; [exact Hlen|].
  exact (oversized_image_is_rejected MiniJson.loads Z Z.sub w Scenario.image_path
           image_data eq_refl Hlen).
Defined.

(** The extracted text is no JSON: the run succeeds all the same. *)
Lemma undecodable_output_skips_date_check_witness :
  let w := Scenario.run_world Scenario.image (Returned Scenario.all_yes_text)
             (Returned "license") (Returned "Sorry, I cannot read this.") in
  MiniJson.loads "Sorry, I cannot read this." = None
  /\ exists qc info log,
       KYCProcessor.process_kyc_document MiniJson.loads Z.sub w Scenario.image_path =
         (KYCProcessor.Success
            {| KYCProcessor.document_type := "license";
               KYCProcessor.extracted := info;
               KYCProcessor.validation_result :=
                 KYCProcessor._validate_extracted_info info "license";
               KYCProcessor.quality_check := qc;
               KYCProcessor.metrics :=
                 {| KYCProcessor.pm_processing_time_seconds := 250;
                    KYCProcessor.pm_confidence_score := confidence_score info |} |},
          log)
       /\ extracted_data info = "Sorry, I cannot read this.".
Proof.
  intros w. split; [reflexivity|].
  do 3 eexists. split.
  - apply (@undecodable_output_skips_date_check MiniJson.loads Z Z.sub w
             Scenario.image_path).
    + exists Scenario.image. do 3 eexists.
      repeat split; try reflexivity.
    + reflexivity.
  - reflexivity.
Defined.

(** The first scenario: a license with every required field, holder aged 30 *)
Lemma success_validation_is_constant_witness :
  exists s log,
    Scenario.run Scenario.image Scenario.all_yes_text "license" Scenario.license_text
      = (KYCProcessor.Success s, log)
    /\ KYCProcessor.validation_result s =
         {| is_valid := true; error := None; missing_fields := Some [];
            details := None; compliance_check := Some "passed" |}
    /\ DocumentReader.validate_extracted_data MiniJson.loads (KYCProcessor.document_type s)
         (JStr (extracted_data (KYCProcessor.extracted s)))
       = Returned (ei_validation_result (KYCProcessor.extracted s)).
Proof.
  assert (E : exists s log,
             Scenario.run Scenario.image Scenario.all_yes_text "license"
               Scenario.license_text = (KYCProcessor.Success s, log))
    by (do 2 eexists; vm_compute; reflexivity).
  destruct E as (s & log & E). exists s, log. split; [exact E|].
  exact (success_validation_is_constant MiniJson.loads Z Z.sub _ _ s log E).
Defined.

(** C1 fails as stated: a license whose extracted fields lack three of the
    required ones passes every step; the success dictionary says
    [is_valid] true with nothing missing, where [validate_extracted_data]
    on the same text and type says [is_valid] false and lists the three. *)
Lemma success_despite_missing_fields :
  let extraction := MiniJson.dq "{'full_name': 'Ada Byron', 'date_of_birth': '1996-05-17'}" in
  exists s log,
    Scenario.run Scenario.image Scenario.all_yes_text "license" extraction
      = (KYCProcessor.Success s, log)
    /\ KYCProcessor.document_type s = "license"
    /\ extracted_data (KYCProcessor.extracted s) = extraction
    /\ is_valid (KYCProcessor.validation_result s) = true
    /\ missing_fields (KYCProcessor.validation_result s) = Some []
    /\ DocumentReader.validate_extracted_data MiniJson.loads "license" (JStr extraction)
       = Returned
           {| is_valid := false;
              error := None;
              missing_fields := Some ["license_number"; "state"; "expiry_date"];
              details :=
                Some {| vd_required_fields :=
                          ["full_name"; "date_of_birth"; "license_number"; "state";
                           "expiry_date"];
                        vd_provided_fields := ["full_name"; "date_of_birth"] |};
              compliance_check := None |}.
Proof.
  cbv zeta. do 2 eexists.
  split; [vm_compute; reflexivity|].
  repeat split.
Qed.

(** The same license run twice, under two clocks *)
Lemma process_is_repeatable_witness :
  let w1 := Scenario.run_world Scenario.image (Returned Scenario.all_yes_text)
              (Returned "license") (Returned Scenario.license_text) in
  let w2 := {| KYCProcessor.read_file := KYCProcessor.read_file w1;
               KYCProcessor.create := KYCProcessor.create w1;
               KYCProcessor.now := KYCProcessor.now w1;
               KYCProcessor.clock_start := 5000;
               KYCProcessor.clock_end := 5125 |} in
  KYCProcessor.with_time 0
    (fst (KYCProcessor.process_kyc_document MiniJson.loads Z.sub w1 Scenario.image_path))
  = KYCProcessor.with_time 0
      (fst (KYCProcessor.process_kyc_document MiniJson.loads Z.sub w2 Scenario.image_path))
  /\ snd (KYCProcessor.process_kyc_document MiniJson.loads Z.sub w1 Scenario.image_path)
     = snd (KYCProcessor.process_kyc_document MiniJson.loads Z.sub w2 Scenario.image_path).
Proof.
  intros w1 w2.
  apply (@process_is_repeatable MiniJson.loads Z Z.sub w1 w2 Scenario.image_path).
  - intros p. reflexivity.
  - intros r. reflexivity.
  - reflexivity.
Defined.

(** The assessment of the second scenario: [clear] is "no". *)
Lemma quality_gate_checks_present_values_witness :
  let quality := MiniJson.dq "{'centered': 'yes', 'clear': 'no', 'fully_visible': 'yes'}" in
  let qc := [("centered", JStr "yes"); ("clear", JStr "no"); ("fully_visible", JStr "yes")] in
  Scenario.run Scenario.image quality "license" Scenario.license_text =
    (KYCProcessor.Error
       {| KYCProcessor.error_message := "Image quality check failed";
          KYCProcessor.quality_issues := Some (JObj qc);
          KYCProcessor.date_issues := None;
          KYCProcessor.processing_time_seconds := 250 |},
     [KYCProcessor.quality_request (KYCProcessor.image_url_of Scenario.image)]).
Proof.
  intros quality qc.
  refine (proj1 (@quality_gate_checks_present_values MiniJson.loads Z Z.sub
                   (Scenario.run_world Scenario.image (Returned quality)
                      (Returned "license") (Returned Scenario.license_text))
                   Scenario.image_path Scenario.image qc eq_refl _ eq_refl) _).
  - cbn. lia.
  - exists "clear", (JStr "no"). split; [cbn; auto | discriminate].
Defined.

(** C3 fails as stated: the assessment has no [fully_visible] flag, so that
    flag is not "yes"; the gate lets the run through all the same, and the
    run returns the success dictionary. *)
Lemma absent_flag_passes_the_gate :
  let quality := MiniJson.dq "{'centered': 'yes', 'clear': 'yes'}" in
  let qc := [("centered", JStr "yes"); ("clear", JStr "yes")] in
  MiniJson.loads quality = Some (JObj qc)
  /\ contains qc "fully_visible" = false
  /\ get qc "fully_visible" JNull <> JStr "yes"
  /\ exists s log,
       Scenario.run Scenario.image quality "license" Scenario.license_text
         = (KYCProcessor.Success s, log)
       /\ KYCProcessor.quality_check s = JObj qc
       /\ List.length log = 3%nat.
Proof.
  cbv zeta. split; [reflexivity|]. split; [reflexivity|]. split; [discriminate|].
  do 2 eexists. split; [vm_compute; reflexivity|]. split; reflexivity.
Qed.

(** A utility bill read with the fields of its schema *)
Lemma missing_date_of_birth_fails_date_check_witness :
  let extraction := MiniJson.dq "{'service_provider': 'Acme Water', 'customer_name': 'Ada Byron', 'address': '1 Main St', 'bill_date': '2026-10-01', 'amount': '42.00'}" in
  exists log,
    Scenario.run Scenario.image Scenario.all_yes_text "utility_bill" extraction =
      (KYCProcessor.Error
         {| KYCProcessor.error_message := "Date validation failed";
            KYCProcessor.quality_issues := None;
            KYCProcessor.date_issues := Some [Some "Invalid date format"];
            KYCProcessor.processing_time_seconds := 250 |},
       log).
Proof.
  intros extraction. eexists.
  refine (proj1 (@missing_date_of_birth_fails_date_check MiniJson.loads Z Z.sub
                   (Scenario.run_world Scenario.image (Returned Scenario.all_yes_text)
                      (Returned "utility_bill") (Returned extraction))
                   Scenario.image_path) _ _ _ _ _ _ _ _).
  - exists Scenario.image. do 3 eexists. repeat split; reflexivity.
  - vm_compute. reflexivity.
  - reflexivity.
Defined.

(** C9 fails as stated: a utility bill whose extracted text is decodable
    JSON reaches the success dictionary, since the text holds a
    [date_of_birth] next to the fields of the schema. *)
Lemma utility_bill_can_succeed :
  let extraction := MiniJson.dq "{'service_provider': 'Acme Water', 'customer_name': 'Ada Byron', 'address': '1 Main St', 'bill_date': '2026-10-01', 'amount': '42.00', 'date_of_birth': '1996-05-17'}" in
  MiniJson.loads extraction <> None
  /\ exists s log,
       Scenario.run Scenario.image Scenario.all_yes_text "utility_bill" extraction
         = (KYCProcessor.Success s, log)
       /\ KYCProcessor.document_type s = value UTILITY_BILL
       /\ extracted_data (KYCProcessor.extracted s) = extraction.
Proof.
  cbv zeta. split; [vm_compute; discriminate|].
  do 2 eexists. split; [vm_compute; reflexivity|]. split; reflexivity.
Qed.

(** * Properties of the date check *)

Section DateFacts.

Import KYCProcessor.

Lemma tuple_lt_pair a b c d :
  tuple_lt [a; b] [c; d] = true <-> precedes a b c d.
Proof.
  unfold precedes. cbn.
  rewrite andb_false_r, orb_false_r, orb_true_iff, andb_true_iff, !Z.ltb_lt, Z.eqb_eq.
  reflexivity.
Qed.

(** [age_of] is the whole-year age of the description. *)
Lemma age_of_is_calendar_age today date :
  calendar_age today date (age_of today date).
Proof.
  unfold calendar_age, age_of.
  destruct (tuple_lt [month today; day today] [month date; day date]) eqn:E.
  - left. apply tuple_lt_pair in E. split; [exact E | cbn; lia].
  - right. split; [|cbn; lia].
    intros H. apply tuple_lt_pair in H. congruence.
Qed.

Lemma calendar_age_unique today date a b :
  calendar_age today date a -> calendar_age today date b -> a = b.
Proof. unfold calendar_age. intuition lia. Qed.

(** What [strptime] returns is a date at midnight that passed the range
    checks. *)
Lemma strptime_midnight s date :
  Strptime.strptime s = Some date ->
  datetime_ok date = true
  /\ hour date = 0 /\ minute date = 0 /\ second date = 0 /\ microsecond date = 0.
Proof.
  unfold Strptime.strptime.
  destruct (Strptime.found s) as [[[[Y m] d] [|c rest]]|]; try discriminate.
  match goal with |- context [datetime_ok ?x] => destruct (datetime_ok x) eqn:E end;
    [|discriminate].
  intros [= <-]. now rewrite E.
Qed.

(** A date of birth after the current moment gives a negative age. *)
Lemma future_date_negative_age today s date :
  datetime_ok today = true ->
  Strptime.strptime s = Some date ->
  datetime_gt date today = true ->
  age_of today date < 0.
Proof.
  intros Hok Hs Hgt.
  destruct (strptime_midnight _ _ Hs) as (_ & Hh & Hmi & Hse & Hus).
  unfold datetime_ok in Hok. rewrite !andb_true_iff, !Z.leb_le in Hok.
  revert Hgt. unfold datetime_gt, astuple, age_of. rewrite Hh, Hmi, Hse, Hus.
  destruct (tuple_lt [month today; day today] [month date; day date]) eqn:E.
  - cbn [tuple_lt Z.b2z].
    rewrite !orb_true_iff, !andb_true_iff, !Z.ltb_lt, !Z.eqb_eq. lia.
  - assert (Hn : ~ precedes (month today) (day today) (month date) (day date)).
    { intros H. apply tuple_lt_pair in H. congruence. }
    unfold precedes in Hn. cbn [tuple_lt Z.b2z].
    rewrite !orb_true_iff, !andb_true_iff, !Z.ltb_lt, !Z.eqb_eq. lia.
Qed.

(** C4. For a string that [strptime] accepts as a date, [is_reasonable]
    is true exactly when the whole-year age at the current date is
    between 18 and 100, both included, and the date is not after the
    current moment; an age of 18 or of 100 is reasonable, an age of 17
    or of 101 is not. *)
Theorem reasonable_iff_age_in_bounds_and_not_future today s date age :
  datetime_ok today = true ->
  Strptime.strptime s = Some date ->
  calendar_age today date age ->
  exists dv,
    _validate_date_reasonability today (JStr s) = Returned dv
    /\ (is_reasonable dv = true <-> (18 <= age <= 100 /\ datetime_gt date today = false))
    /\ (age = 18 -> is_reasonable dv = true)
    /\ (age = 100 -> is_reasonable dv = true)
    /\ (age = 17 -> is_reasonable dv = false)
    /\ (age = 101 -> is_reasonable dv = false).
Proof.
  intros Hok Hs Hage.
  assert (age = age_of today date) as ->
      by exact (calendar_age_unique _ _ _ _ Hage (age_of_is_calendar_age today date)). 
  unfold _validate_date_reasonability. rewrite Hs. eexists. split; [reflexivity|].
  cbv beta iota delta [is_reasonable].
  split; [|repeat split; intros ->; reflexivity].
  rewrite andb_true_iff, !Z.leb_le. split.
  - intros H. split; [exact H|].
    destruct (datetime_gt date today) eqn:E; [|reflexivity].
    pose proof (future_date_negative_age _ _ _ Hok Hs E). lia.
  - now intros (H & _).
Qed.

(** C2, as the code has it. For a string that [strptime] accepts, the
    issues are three slots, in the order: below 18, over 100, in the
    future.  A slot holds its message when its condition holds and a null
    placeholder when it does not, so a message is among the issues
    exactly when its condition holds, and a placeholder is always among
    them (the first two conditions exclude each other).  For a string
    that [strptime] refuses, the issues are the one entry "Invalid date
    format". *)
Theorem issues_are_three_slots today s :
  exists dv,
    _validate_date_reasonability today (JStr s) = Returned dv
    /\ (forall date,
          Strptime.strptime s = Some date ->
          let age := age_of today date in
          issues dv =
            [ if age <? 18 then Some "Age below 18" else None;
              if age >? 100 then Some "Age appears unreasonable (over 100 years)"
              else None;
              if datetime_gt date today then Some "Date is in the future" else None ]
          /\ (In (Some "Age below 18") (issues dv) <-> age < 18)
          /\ (In (Some "Age appears unreasonable (over 100 years)") (issues dv)
              <-> age > 100)
          /\ (In (Some "Date is in the future") (issues dv)
              <-> datetime_gt date today = true)
          /\ In None (issues dv))
    /\ (Strptime.strptime s = None ->
        dv = {| is_reasonable := false; issues := [Some "Invalid date format"] |}).
Proof.
  unfold _validate_date_reasonability.
  destruct (Strptime.strptime s) as [date|]; eexists; (split; [reflexivity|]).
  - split; [|discriminate].
    intros date' Heq. injection Heq as <-. cbv zeta beta iota delta [issues].
    split; [reflexivity|].
    destruct (Z.ltb_spec (age_of today date) 18), (Z.gtb_spec (age_of today date) 100),
      (datetime_gt date today);
      cbn [In]; repeat split; intros; try lia; try discriminate;
      intuition (try discriminate; try lia; auto).
  - split; [discriminate|reflexivity].
Qed.

End DateFacts.

(** A birthday today: 18 years old *)
Lemma reasonable_iff_age_in_bounds_and_not_future_witness :
  Strptime.strptime "2008-11-04" <> None
  /\ exists dv,
       KYCProcessor._validate_date_reasonability Scenario.today (JStr "2008-11-04")
         = Returned dv
       /\ is_reasonable dv = true.
Proof.
  split; [discriminate|].
  assert (Hage : calendar_age Scenario.today
                   {| year := 2008; month := 11; day := 4;
                      hour := 0; minute := 0; second := 0; microsecond := 0 |} 18).
  { right. split; [unfold precedes; cbn; lia | reflexivity]. }
  destruct (reasonable_iff_age_in_bounds_and_not_future
              Scenario.today "2008-11-04" _ 18 eq_refl eq_refl Hage)
    as (dv & Hdv & _ & H18 & _).
  exists dv. split; [exact Hdv | exact (H18 eq_refl)].
Defined.

(** The boundaries on the day before and after a birthday *)
Example age_boundaries :
  map (fun s => KYCProcessor._validate_date_reasonability Scenario.today (JStr s))
      ["2008-11-04"; "2008-11-05"; "1926-11-04"; "1925-11-05"; "1925-11-04"]
  = [ Returned {| is_reasonable := true; issues := [None; None; None] |};
      Returned {| is_reasonable := false; issues := [Some "Age below 18"; None; None] |};
      Returned {| is_reasonable := true; issues := [None; None; None] |};
      Returned {| is_reasonable := true; issues := [None; None; None] |};
      Returned {| is_reasonable := false;
                  issues := [None; Some "Age appears unreasonable (over 100 years)"; None] |} ].
Proof. reflexivity. Qed.

(** A date in the future: both the age issue and the future issue *)
Example future_date_issues :
  KYCProcessor._validate_date_reasonability Scenario.today (JStr "2030-01-01")
  = Returned {| is_reasonable := false;
                issues := [Some "Age below 18"; None; Some "Date is in the future"] |}.
Proof. reflexivity. Qed.

Lemma issues_are_three_slots_witness :
  exists dv,
    KYCProcessor._validate_date_reasonability Scenario.today (JStr "2030-01-01")
      = Returned dv
    /\ In (Some "Date is in the future") (issues dv)
    /\ In None (issues dv).
Proof.
  destruct (issues_are_three_slots Scenario.today "2030-01-01") as (dv & Hdv & Hsome & _).
  destruct (Hsome _ eq_refl) as (_ & _ & _ & Hfut & Hnone).
  exists dv. split; [exact Hdv|]. split; [apply Hfut; reflexivity | exact Hnone].
Defined.

(** C2 fails as stated: for a plain date of birth of a thirty-year-old no
    issue applies, and the issues hold three null placeholders. *)
Lemma issues_hold_placeholders :
  exists dv,
    KYCProcessor._validate_date_reasonability Scenario.today (JStr "1996-05-17")
      = Returned dv
    /\ issues dv = [None; None; None]
    /\ In None (issues dv).
Proof.
  eexists. split; [reflexivity|]. split; [reflexivity | now left].
Qed.

(** * Properties of the registry and of the field validation *)

Section RegistryFacts.

Import DocumentReader.

Variable json_loads : string -> option json.

Lemma registry_entry (t : DocumentType) :
  exists c, lookup _document_configs (value t) = Some c
            /\ required_fields c <> []
            /\ get_required_fields (value t) = required_fields c
            /\ get_document_prompt (value t) = Some (prompt c)
            /\ NoDup (required_fields c).
Proof.
  destruct t; eexists; (split; [reflexivity|]);
    (split; [discriminate|]); (split; [reflexivity|]); (split; [reflexivity|]);
    cbn; repeat constructor; cbn; intuition discriminate.
Qed.

Lemma lookup_none (token : string) :
  (forall t, value t <> token) -> lookup _document_configs token = None.
Proof.
  intros H. cbv [lookup _document_configs].
  destruct (String.eqb_spec (value PASSPORT) token) as [E|_]; [now apply H in E|].
  destruct (String.eqb_spec (value LICENSE) token) as [E|_]; [now apply H in E|].
  destruct (String.eqb_spec (value NATIONAL_ID) token) as [E|_]; [now apply H in E|].
  destruct (String.eqb_spec (value UTILITY_BILL) token) as [E|_]; [now apply H in E|].
  destruct (String.eqb_spec (value BANK_STATEMENT) token) as [E|_]; [now apply H in E|].
  reflexivity.
Qed.

(** C6. Every document type of the enumeration has an entry in the
    table, with a required-field list that is not empty.  A token that
    is the value of no document type has no entry: the lookup gives
    nothing, there are no required fields and no prompt, and
    [validate_extracted_data] on that token returns [is_valid] false
    with the error "Unknown document type: " followed by the token,
    whatever the payload. *)
Theorem registry_covers_the_supported_types :
  (forall t, exists c, lookup _document_configs (value t) = Some c
                       /\ required_fields c <> []
                       /\ get_required_fields (value t) = required_fields c)
  /\ (forall token payload,
        (forall t, value t <> token) ->
        lookup _document_configs token = None
        /\ get_required_fields token = []
        /\ get_document_prompt token = None
        /\ validate_extracted_data json_loads token payload =
             Returned {| is_valid := false;
                         error := Some ("Unknown document type: " ++ token);
                         missing_fields := None;
                         details := None;
                         compliance_check := None |}).
Proof.
  split.
  - intros t. destruct (registry_entry t) as (c & H1 & H2 & H3 & _). now exists c.
  - intros token payload H. apply lookup_none in H.
    unfold validate_extracted_data, get_required_fields, get_document_prompt.
    now rewrite H.
Qed.

(** *** Field validation *)

Lemma contains_remove (d : dict) f g :
  contains (remove d f) g = contains d g && negb (String.eqb g f).
Proof.
  unfold contains, keys, remove.
  induction d as [|[k v] d IH]; [reflexivity|]. cbn.
  destruct (String.eqb k f) eqn:Ekf; cbn; rewrite IH;
    destruct (String.eqb g k) eqn:Egk, (String.eqb g f) eqn:Egf; cbn;
    rewrite ?andb_false_r, ?andb_true_r; try reflexivity;
    rewrite ?String.eqb_eq, ?String.eqb_neq in *; congruence.
Qed.

Lemma filter_none {A} (p : A -> bool) (l : list A) :
  (forall x, In x l -> p x = false) -> filter p l = [].
Proof.
  induction l as [|a l IH]; [reflexivity|]. intros H. cbn.
  rewrite (H a (or_introl eq_refl)). apply IH. intros x Hx. apply H. now right.
Qed.

(** In a list without repetition, keeping what equals [f] keeps [f]. *)
Lemma filter_only (l : list string) (p : string -> bool) f :
  NoDup l -> In f l -> (forall g, In g l -> p g = String.eqb g f) ->
  filter p l = [f].
Proof.
  induction l as [|a l IH]; [contradiction|].
  intros Hnd Hin Hp. inversion Hnd as [|? ? Hnotin Hnd']; subst. cbn.
  rewrite (Hp a (or_introl eq_refl)).
  destruct (String.eqb_spec a f) as [->|Hne].
  - f_equal. apply filter_none. intros x Hx.
    rewrite (Hp x (or_intror Hx)). apply String.eqb_neq. now intros ->.
  - destruct Hin as [->|Hin]; [contradiction|].
    apply IH; auto. intros g Hg. apply Hp. now right.
Qed.

(** C5. For a document type of the enumeration and a payload object
    that holds every required field of the type, with whatever else:
    [validate_extracted_data] reports no missing field and [is_valid]
    true.  With any one required field removed from that payload, it
    reports exactly that field as missing and [is_valid] false.  For
    every payload object the missing fields are the required fields that
    the payload lacks, in the order of the table. *)
Theorem complete_payload_validates (t : DocumentType) (d : dict) :
  (forall f, In f (get_required_fields (value t)) -> contains d f = true) ->
  validate_extracted_data json_loads (value t) (JObj d) =
    Returned {| is_valid := true;
                error := None;
                missing_fields := Some [];
                details := Some {| vd_required_fields := get_required_fields (value t);
                                   vd_provided_fields := keys d |};
                compliance_check := None |}
  /\ (forall f, In f (get_required_fields (value t)) ->
        validate_extracted_data json_loads (value t) (JObj (remove d f)) =
          Returned {| is_valid := false;
                      error := None;
                      missing_fields := Some [f];
                      details :=
                        Some {| vd_required_fields := get_required_fields (value t);
                                vd_provided_fields := keys (remove d f) |};
                      compliance_check := None |})
  /\ (forall d' : dict,
        exists v, validate_extracted_data json_loads (value t) (JObj d') = Returned v
                  /\ missing_fields v =
                       Some (filter (fun field => negb (contains d' field))
                                    (get_required_fields (value t)))
                  /\ (is_valid v = true <-> missing_fields v = Some [])).
Proof.
  intros Hall.
  destruct (registry_entry t) as (c & _ & Hne & Hreq & _ & Hnd).
  rewrite <- Hreq in Hne, Hnd.
  unfold validate_extracted_data.
  destruct (get_required_fields (value t)) as [|f0 required] eqn:E; [contradiction|].
  unfold check_fields. repeat split.
  - rewrite filter_none; [reflexivity|].
    intros f Hf. now rewrite (Hall f Hf).
  - intros f Hf.
    rewrite (filter_only (f0 :: required) _ f Hnd Hf); [reflexivity|].
    intros g Hg. rewrite contains_remove, (Hall g Hg). cbn. now rewrite negb_involutive.
  - intros d'. eexists. split; [reflexivity|]. split; [reflexivity|].
    cbv beta iota delta [is_valid missing_fields].
    generalize (filter (fun field => negb (contains d' field)) (f0 :: required)).
    intros [|a l]; cbn; split; intros; (reflexivity || discriminate).
Qed.

End RegistryFacts.

Lemma registry_covers_the_supported_types_witness :
  DocumentReader.get_document_prompt "invoice" = None
  /\ DocumentReader.validate_extracted_data MiniJson.loads "invoice" (JStr Scenario.license_text)
     = Returned {| is_valid := false;
                   error := Some "Unknown document type: invoice";
                   missing_fields := None;
                   details := None;
                   compliance_check := None |}.
Proof.
  assert (H : forall t, value t <> "invoice") by (intros []; discriminate).
  destruct (proj2 (registry_covers_the_supported_types MiniJson.loads)
              "invoice" (JStr Scenario.license_text) H) as (_ & _ & Hp & Hv).
  split; [exact Hp | exact Hv].
Defined.

(** The license of the first scenario, whole and with [state] removed *)
Lemma complete_payload_validates_witness :
  let d := [("full_name", JStr "Ada Byron"); ("date_of_birth", JStr "1996-05-17");
            ("license_number", JStr "D123"); ("state", JStr "CA");
            ("expiry_date", JStr "2030-01-01"); ("issuer", JStr "DMV")] in
  (exists v, DocumentReader.validate_extracted_data MiniJson.loads "license" (JObj d)
             = Returned v
             /\ is_valid v = true /\ missing_fields v = Some [])
  /\ (exists v, DocumentReader.validate_extracted_data MiniJson.loads "license"
                  (JObj (remove d "state")) = Returned v
                /\ is_valid v = false /\ missing_fields v = Some ["state"]).
Proof.
  intros d.
  assert (H : forall f, In f (DocumentReader.get_required_fields (value LICENSE)) ->
                        contains d f = true).
  { intros f Hf. cbn in Hf. intuition (subst; reflexivity). }
  destruct (complete_payload_validates MiniJson.loads LICENSE d H) as (Hfull & Hrem & _).
  split.
  - eexists. split; [exact Hfull|]. split; reflexivity.
  - eexists. split; [apply (Hrem "state"); cbn; auto|]. split; reflexivity.
Defined.

(** * The runtime helpers and the scenarios of the description, run *)

Example strptime_accepts :
  map Strptime.strptime ["1990-01-05"; "1990-1- 5"; "2000-02-29"; "1990-12-3"]
  = map (fun ymd => Some {| year := fst (fst ymd); month := snd (fst ymd); day := snd ymd;
                            hour := 0; minute := 0; second := 0; microsecond := 0 |})
        [(1990, 1, 5); (1990, 1, 5); (2000, 2, 29); (1990, 12, 3)].
Proof. reflexivity. Qed.

Example strptime_refuses :
  map Strptime.strptime
      [""; "not-a-date"; "1990-02-30"; "1900-02-29"; "0000-01-01"; "1990-13-01";
       "1990-12-32"; "1990-12-31 "; "1990-012-3"; "90-01-01"; "1990/01/01"]
  = repeat None 11.
Proof. reflexivity. Qed.

Example normalised_classification : lower (strip "  License
") = "license".
Proof. reflexivity. Qed.

Example base64_padding :
  map Base64.encode [[]; [Byte.x4d]; [Byte.x4d; Byte.x61]; [Byte.x4d; Byte.x61; Byte.x6e]]
  = [""; "TQ=="; "TWE="; "TWFu"].
Proof. reflexivity. Qed.

Example loads_object :
  MiniJson.loads (MiniJson.dq "{'a': 'x', 'b': 12, 'c': [1, null, true], 'a': {}}")
  = Some (JObj [("a", JObj []); ("b", JInt 12); ("c", JArr [JInt 1; JNull; JBool true])]).
Proof. reflexivity. Qed.

Example loads_refuses :
  map MiniJson.loads [""; "not json"; "{} x"; "01"; "nul"; MiniJson.dq "{'a': 1,}"]
  = repeat None 6.
Proof. reflexivity. Qed.

(** Scenario 1: the license is read, the holder is 30. *)
Example scenario_valid_license :
  exists s,
    Scenario.run Scenario.image Scenario.all_yes_text "license" Scenario.license_text
      = (KYCProcessor.Success s,
         [ KYCProcessor.quality_request (KYCProcessor.image_url_of Scenario.image);
           KYCProcessor.classify_request (KYCProcessor.image_url_of Scenario.image);
           KYCProcessor.extract_request
             "Extract in JSON format:
                            - full_name
                            - date_of_birth
                            - license_number
                            - state
                            - expiry_date"
             (KYCProcessor.image_url_of Scenario.image) ])
    /\ is_valid (KYCProcessor.validation_result s) = true
    /\ is_valid (ei_validation_result (KYCProcessor.extracted s)) = true.
Proof. eexists. split; [vm_compute; reflexivity|]. split; reflexivity. Qed.

(** Scenario 3: the classification answers "invoice". *)
Example scenario_unsupported_type :
  fst (Scenario.run Scenario.image Scenario.all_yes_text "invoice" Scenario.license_text)
  = KYCProcessor.Error
      {| KYCProcessor.error_message := "Unsupported document type: invoice";
         KYCProcessor.quality_issues := None;
         KYCProcessor.date_issues := None;
         KYCProcessor.processing_time_seconds := 250 |}.
Proof. reflexivity. Qed.

(** The quality request fails: the assessment is all "no". *)
Example scenario_quality_call_fails :
  fst (KYCProcessor.process_kyc_document MiniJson.loads Z.sub
         (Scenario.run_world Scenario.image (Raised (Exn OtherException "timeout"))
            (Returned "license") (Returned Scenario.license_text))
         Scenario.image_path)
  = KYCProcessor.Error
      {| KYCProcessor.error_message := "Image quality check failed";
         KYCProcessor.quality_issues := Some KYCProcessor.quality_default;
         KYCProcessor.date_issues := None;
         KYCProcessor.processing_time_seconds := 250 |}.
Proof. reflexivity. Qed.

(** Extracted texts that decode to no object fail in the extraction step. *)
Example scenario_extraction_not_an_object :
  map (fun extraction =>
         fst (Scenario.run Scenario.image Scenario.all_yes_text "license" extraction))
      ["[]"; "5"; "null"]
  = map (fun message =>
           KYCProcessor.Error
             {| KYCProcessor.error_message := message;
                KYCProcessor.quality_issues := None;
                KYCProcessor.date_issues := None;
                KYCProcessor.processing_time_seconds := 250 |})
        ["'list' object has no attribute 'keys'";
         "argument of type 'int' is not iterable";
         "argument of type 'NoneType' is not iterable"].
Proof. reflexivity. Qed.

(** * Further properties of the pipeline *)

Section MorePipelineFacts.

Import KYCProcessor.

Variable json_loads : string -> option json.
Variable time : Type.
Variable elapsed : time -> time -> time.

Local Abbreviation run := (process_kyc_document json_loads elapsed).

Lemma size_within_limit (data : list Byte.byte) :
  Z.of_nat (List.length data) <= size_limit ->
  (Z.of_nat (List.length data) >? size_limit) = false.
Proof. intros H. rewrite Z.gtb_ltb. apply Z.ltb_ge. exact H. Qed.

(** Past the gate, the [try] block is at step 2, with one request sent. *)
Lemma pipeline_after_gate (w : world time) path data qc :
  passes_quality_gate json_loads w path data qc ->
  pipeline json_loads elapsed w path [] =
    steps_2_to_5 json_loads elapsed w (image_url_of data) (JObj qc)
      [quality_request (image_url_of data)].
Proof.
  intros (Hr & Hs & Hq & Ha).
  pose proof (quality_log json_loads time w (image_url_of data) []) as Hl.
  destruct (_validate_image_quality json_loads w (image_url_of data) [])
    as [o log1] eqn:Hv. cbn [fst snd] in Hq, Hl. subst o log1.
  unfold pipeline, bind, lift.
  rewrite Hr, (size_within_limit _ Hs), Hv. cbn [py_values]. now rewrite Ha.
Qed.

(** The assessment step always returns, and sends its one request. *)
Lemma quality_returns (w : world time) u log :
  exists v, _validate_image_quality json_loads w u log
            = (Returned v, (log ++ [quality_request u])%list).
Proof.
  unfold _validate_image_quality, chat.
  destruct (create w (quality_request u)) as [content|e]; [|now eexists].
  destruct (json_loads content); now eexists.
Qed.

(** X1. No request is sent to the model exactly when the image cannot be
    used: the file cannot be read, or it holds more than 20 MiB.  When the
    file cannot be read the run returns the error dictionary with the
    message of that failure. *)
Theorem no_request_iff_image_unusable (w : world time) path :
  (snd (run w path) = [] <->
   (exists e, read_file w path = Raised e)
   \/ (exists data, read_file w path = Returned data
                    /\ Z.of_nat (List.length data) > 20 * 1024 * 1024))
  /\ (forall e, read_file w path = Raised e ->
                run w path = (error_result elapsed w (str_exn e), [])).
Proof.
  unfold process_kyc_document, pipeline, bind, lift. split.
  - destruct (read_file w path) as [data|e] eqn:Hr.
    + destruct (Z.of_nat (List.length data) >? size_limit) eqn:Hs.
      * cbn. split; [intros _|reflexivity]. right. exists data.
        split; [reflexivity|]. apply Z.gtb_lt in Hs. unfold size_limit in Hs. lia.
      * destruct (quality_returns w (image_url_of data) []) as [v Hq]. rewrite Hq.
        assert (Hne : forall (x : outcome (result time) * list request),
                   snd x = (quality_request (image_url_of data)
                              :: tl (snd x)) ->
                   snd (let (o, log) := x in
                        match o with
                        | Returned r => (r, log)
                        | Raised e => (error_result elapsed w (str_exn e), log)
                        end) = [] -> False).
        { intros [[r|e] l]; cbn; intros -> ; discriminate. }
        split.
        -- intros H. exfalso. revert H. apply Hne.
           destruct (py_values v) as [flags|e]; [|reflexivity].
           destruct (negb (all_yes flags)); [reflexivity|].
           destruct (steps_2_to_5_log json_loads time elapsed w (image_url_of data) v
                       ([] ++ [quality_request (image_url_of data)])) as [more ->].
           reflexivity.
        -- intros [[e He]|[d [Hd Hlen]]]; [discriminate|].
           injection Hd as <-. rewrite Z.gtb_ltb in Hs. apply Z.ltb_ge in Hs.
           unfold size_limit in Hs. lia.
    + cbn. split; [intros _|reflexivity]. left. now exists e.
  - intros e ->. reflexivity.
Qed.

(** X2. When the assessment request fails, or its completion does not
    decode, the assessment is taken to be "no" for all three flags: the
    run returns the failure of the quality step with that assessment as
    [quality_issues], and sends nothing more. *)
Theorem failed_assessment_counts_as_all_no (w : world time) path data :
  read_file w path = Returned data ->
  Z.of_nat (List.length data) <= 20 * 1024 * 1024 ->
  (exists e, create w (quality_request (image_url_of data)) = Raised e)
  \/ (exists content, create w (quality_request (image_url_of data)) = Returned content
                      /\ json_loads content = None) ->
  run w path =
    (Error {| error_message := "Image quality check failed";
              quality_issues :=
                Some (JObj [("centered", JStr "no"); ("clear", JStr "no");
                            ("fully_visible", JStr "no")]);
              date_issues := None;
              processing_time_seconds := elapsed (clock_end w) (clock_start w) |},
     [quality_request (image_url_of data)]).
Proof.
  intros Hr Hs Hfail.
  unfold process_kyc_document, pipeline, bind, lift.
  rewrite Hr, (size_within_limit _ Hs).
  unfold _validate_image_quality, chat.
  destruct Hfail as [[e ->]|(content & -> & ->)]; reflexivity.
Qed.

(** X3. An assessment that decodes to something other than an object (a
    list, a number, null, a string) is not a quality failure: asking it
    for its values fails, and the run returns the generic error dictionary
    with the message of that failure, after the one assessment request. *)
Theorem non_object_assessment_is_generic_error (w : world time) path data content v :
  read_file w path = Returned data ->
  Z.of_nat (List.length data) <= 20 * 1024 * 1024 ->
  create w (quality_request (image_url_of data)) = Returned content ->
  json_loads content = Some v ->
  is_object v = false ->
  run w path =
    (Error {| error_message := "'" ++ type_name v ++ "' object has no attribute 'values'";
              quality_issues := None;
              date_issues := None;
              processing_time_seconds := elapsed (clock_end w) (clock_start w) |},
     [quality_request (image_url_of data)]).
Proof.
  intros Hr Hs Hc Hv Hobj.
  unfold process_kyc_document, pipeline, bind, lift.
  rewrite Hr, (size_within_limit _ Hs).
  unfold _validate_image_quality, chat. rewrite Hc, Hv.
  destruct v; try discriminate; reflexivity.
Qed.

(** A type with a prompt is one of the enumeration, and its prompt is not
    empty. *)
Lemma prompt_cases doc_type p :
  DocumentReader.get_document_prompt doc_type = Some p ->
  (exists t, doc_type = value t) /\ (exists c rest, p = String c rest).
Proof.
  unfold DocumentReader.get_document_prompt.
  cbv [DocumentReader.lookup DocumentReader._document_configs].
  destruct (String.eqb_spec (value PASSPORT) doc_type) as [E|_];
    [intros [= <-]; split; [now exists PASSPORT | now do 2 eexists]|].
  destruct (String.eqb_spec (value LICENSE) doc_type) as [E|_];
    [intros [= <-]; split; [now exists LICENSE | now do 2 eexists]|].
  destruct (String.eqb_spec (value NATIONAL_ID) doc_type) as [E|_];
    [intros [= <-]; split; [now exists NATIONAL_ID | now do 2 eexists]|].
  destruct (String.eqb_spec (value UTILITY_BILL) doc_type) as [E|_];
    [intros [= <-]; split; [now exists UTILITY_BILL | now do 2 eexists]|].
  destruct (String.eqb_spec (value BANK_STATEMENT) doc_type) as [E|_];
    [intros [= <-]; split; [now exists BANK_STATEMENT | now do 2 eexists]|].
  discriminate.
Qed.

(** X4. Past the gate, a classification request that fails ends the run
    with the generic error dictionary that carries the message of the
    failure; the extraction request is never sent. *)
Theorem classification_failure_is_generic_error (w : world time) path data qc e :
  passes_quality_gate json_loads w path data qc ->
  create w (classify_request (image_url_of data)) = Raised e ->
  run w path =
    (Error {| error_message := str_exn e;
              quality_issues := None;
              date_issues := None;
              processing_time_seconds := elapsed (clock_end w) (clock_start w) |},
     [quality_request (image_url_of data); classify_request (image_url_of data)]).
Proof.
  intros Hgate Hc. unfold process_kyc_document.
  rewrite (pipeline_after_gate _ _ _ _ Hgate).
  unfold steps_2_to_5, _detect_document_type, bind, chat. now rewrite Hc.
Qed.

(** X5. Past the gate, a classification whose answer, stripped and put in
    lower case, is the value of no document type ends the run with the
    error "Unsupported document type: " followed by that token; the
    extraction request is never sent. *)
Theorem unsupported_type_stops_before_extraction (w : world time) path data qc content :
  passes_quality_gate json_loads w path data qc ->
  create w (classify_request (image_url_of data)) = Returned content ->
  (forall t, value t <> lower (strip content)) ->
  run w path =
    (Error {| error_message := "Unsupported document type: " ++ lower (strip content);
              quality_issues := None;
              date_issues := None;
              processing_time_seconds := elapsed (clock_end w) (clock_start w) |},
     [quality_request (image_url_of data); classify_request (image_url_of data)]).
Proof.
  intros Hgate Hc Hnone. unfold process_kyc_document.
  rewrite (pipeline_after_gate _ _ _ _ Hgate).
  unfold steps_2_to_5, _detect_document_type, bind, chat, ret. rewrite Hc.
  unfold _extract_document_info, DocumentReader.get_document_prompt.
  now rewrite (lookup_none _ Hnone).
Qed.

(** X6. Past the gate and with a supported type, an extraction request
    that fails ends the run with the generic error dictionary that carries
    the message of the failure, after the three requests. *)
Theorem extraction_failure_is_generic_error (w : world time) path data qc content p e :
  passes_quality_gate json_loads w path data qc ->
  create w (classify_request (image_url_of data)) = Returned content ->
  DocumentReader.get_document_prompt (lower (strip content)) = Some p ->
  create w (extract_request p (image_url_of data)) = Raised e ->
  run w path =
    (Error {| error_message := str_exn e;
              quality_issues := None;
              date_issues := None;
              processing_time_seconds := elapsed (clock_end w) (clock_start w) |},
     [quality_request (image_url_of data); classify_request (image_url_of data);
      extract_request p (image_url_of data)]).
Proof.
  intros Hgate Hc Hp He. unfold process_kyc_document.
  rewrite (pipeline_after_gate _ _ _ _ Hgate).
  unfold steps_2_to_5, _detect_document_type, bind, chat, ret. rewrite Hc.
  unfold _extract_document_info. rewrite Hp.
  destruct (proj2 (prompt_cases _ _ Hp)) as (c & rest & ->).
  unfold bind, chat. now rewrite He.
Qed.

(** X7. Past the gate and with a supported type, an extracted text that
    decodes to something other than an object never reaches the date
    check: the field validation inside the extraction step fails on it,
    and the run returns the generic error dictionary with that message
    (no [keys] on a list or a string, no membership test on the others). *)
Theorem non_object_extraction_is_generic_error
        (w : world time) path data qc content p text v :
  passes_quality_gate json_loads w path data qc ->
  create w (classify_request (image_url_of data)) = Returned content ->
  DocumentReader.get_document_prompt (lower (strip content)) = Some p ->
  create w (extract_request p (image_url_of data)) = Returned text ->
  json_loads text = Some v ->
  is_object v = false ->
  run w path =
    (Error {| error_message :=
                match v with
                | JArr _ | JStr _ =>
                    "'" ++ type_name v ++ "' object has no attribute 'keys'"
                | _ => "argument of type '" ++ type_name v ++ "' is not iterable"
                end;
              quality_issues := None;
              date_issues := None;
              processing_time_seconds := elapsed (clock_end w) (clock_start w) |},
     [quality_request (image_url_of data); classify_request (image_url_of data);
      extract_request p (image_url_of data)]).
Proof.
  intros Hgate Hc Hp He Hv Hobj. unfold process_kyc_document.
  rewrite (pipeline_after_gate _ _ _ _ Hgate).
  unfold steps_2_to_5, _detect_document_type, bind, chat, ret. rewrite Hc.
  unfold _extract_document_info. rewrite Hp.
  pose proof (prompt_has_fields _ _ Hp) as Hreq.
  destruct (proj2 (prompt_cases _ _ Hp)) as (c & rest & ->).
  unfold bind, chat, lift. rewrite He.
  unfold DocumentReader.validate_extracted_data.
  destruct (DocumentReader.get_required_fields (lower (strip content))); [contradiction|].
  rewrite Hv. destruct v; try discriminate; reflexivity.
Qed.

(** X8. A run that reaches the date check with an object whose
    [date_of_birth] is not a string (a number, null, a list): the date
    check does not report a date issue; [strptime] refuses the argument
    and the run returns the generic error dictionary with its message. *)
Theorem non_string_date_of_birth_is_generic_error
        (w : world time) path qc doc_type info log d :
  reaches_date_step json_loads w path qc doc_type info log ->
  json_loads (extracted_data info) = Some (JObj d) ->
  (forall s, get d "date_of_birth" (JStr "") <> JStr s) ->
  run w path =
    (Error {| error_message :=
                "strptime() argument 1 must be str, not "
                ++ match get d "date_of_birth" (JStr "") with
                   | JNull => "None"
                   | v => type_name v
                   end;
              quality_issues := None;
              date_issues := None;
              processing_time_seconds := elapsed (clock_end w) (clock_start w) |},
     log).
Proof.
  intros Hreach Hdec Hns. unfold process_kyc_document.
  rewrite (pipeline_reaches _ _ _ _ _ _ _ _ _ Hreach).
  unfold date_step, bind, lift. rewrite Hdec. cbn [py_get].
  destruct (get d "date_of_birth" (JStr "")) as [| | | |s| |] eqn:E;
    try reflexivity.
  now destruct (Hns s).
Qed.

(** What the extraction step logs: nothing without a prompt, else its
    request. *)
Lemma extract_log_cases (w : world time) u doc_type log :
  snd (_extract_document_info json_loads w u doc_type log) = log
  \/ exists p, DocumentReader.get_document_prompt doc_type = Some p
               /\ snd (_extract_document_info json_loads w u doc_type log)
                  = (log ++ [extract_request p u])%list.
Proof.
  unfold _extract_document_info.
  destruct (DocumentReader.get_document_prompt doc_type) as [[|c p]|];
    [now left | | now left].
  right. exists (String c p). split; [reflexivity|].
  unfold bind, chat, lift, ret.
  destruct (create w (extract_request (String c p) u)) as [content|e]; [|reflexivity].
  now destruct (DocumentReader.validate_extracted_data json_loads doc_type (JStr content)).
Qed.

(** X9. The requests of a run follow the steps: none, or the assessment
    alone, or the assessment and the classification, or these two and the
    extraction with the prompt of a document type; all of them carry the
    URL of the image that was read.  A run never sends more than three
    requests and never extracts before it has classified. *)
Theorem requests_follow_the_steps (w : world time) path :
  snd (run w path) = []
  \/ exists data,
       read_file w path = Returned data
       /\ (snd (run w path) = [quality_request (image_url_of data)]
           \/ snd (run w path) =
                [quality_request (image_url_of data); classify_request (image_url_of data)]
           \/ exists t p,
                DocumentReader.get_document_prompt (value t) = Some p
                /\ snd (run w path) =
                     [quality_request (image_url_of data);
                      classify_request (image_url_of data);
                      extract_request p (image_url_of data)]).
Proof.
  assert (Hsnd : forall (x : outcome (result time) * list request),
             snd (let (o, log) := x in
                  match o with
                  | Returned r => (r, log)
                  | Raised e => (error_result elapsed w (str_exn e), log)
                  end) = snd x) by (intros [[r|e] l]; reflexivity).
  unfold process_kyc_document. rewrite Hsnd.
  unfold pipeline, bind, lift.
  destruct (read_file w path) as [data|e] eqn:Hr; [|now left].
  destruct (Z.of_nat (List.length data) >? size_limit); [now left|].
  right. exists data. split; [reflexivity|].
  destruct (quality_returns w (image_url_of data) []) as [v ->]. cbn [app].
  destruct (py_values v) as [flags|e]; [|now left].
  destruct (negb (all_yes flags)); [now left|].
  unfold steps_2_to_5, bind.
  pose proof (detect_log time w (image_url_of data) [quality_request (image_url_of data)])
    as Hd.
  destruct (_detect_document_type w (image_url_of data) _) as [[doc_type|e] log2];
    cbn [snd app] in Hd; subst log2; [|right; now left].
  destruct (extract_log_cases w (image_url_of data) doc_type
              [quality_request (image_url_of data); classify_request (image_url_of data)])
    as [He|(p & Hp & He)].
  - right. left.
    destruct (_extract_document_info json_loads w (image_url_of data) doc_type _)
      as [[info|e] log3]; cbn [snd] in He; subst log3; [|reflexivity].
    apply date_step_log.
  - right. right.
    destruct (proj1 (prompt_cases _ _ Hp)) as [t ->].
    exists t, p. split; [exact Hp|].
    destruct (_extract_document_info json_loads w (image_url_of data) (value t) _)
      as [[info|e] log3]; cbn [snd app] in He; subst log3; [|reflexivity].
    apply date_step_log.
Qed.

(** X10. What a success dictionary always holds: the document type is the
    value of one of the five types of the enumeration, the confidence
    score is 0.92, the assessment is an object all of whose values are
    "yes", the extracted text is the completion of the extraction request,
    and exactly the three requests were sent, the extraction one with the
    prompt of that type. *)
Theorem success_characterised (w : world time) path s log :
  run w path = (Success s, log) ->
  exists t p data qc,
    document_type s = value t
    /\ DocumentReader.get_document_prompt (value t) = Some p
    /\ read_file w path = Returned data
    /\ Z.of_nat (List.length data) <= 20 * 1024 * 1024
    /\ quality_check s = JObj qc
    /\ (forall k v, In (k, v) qc -> v = JStr "yes")
    /\ create w (extract_request p (image_url_of data))
       = Returned (extracted_data (extracted s))
    /\ pm_confidence_score (metrics s) = 0.92%Q
    /\ log = [quality_request (image_url_of data); classify_request (image_url_of data);
              extract_request p (image_url_of data)].
Proof.
  intros H.
  destruct (success_inv _ _ _ _ _ _ _ H) as (qc & doc_type & info & Hreach & Hstep).
  apply date_step_success in Hstep. subst s. cbn.
  destruct Hreach as (data & flags & log1 & log2 & Hr & Hs & Hq & Hv & Ha & Hd & He).
  pose proof (quality_log json_loads time w (image_url_of data) []) as Hl1.
  rewrite Hq in Hl1. cbn [snd app] in Hl1. subst log1.
  pose proof (detect_log time w (image_url_of data) [quality_request (image_url_of data)])
    as Hl2.
  rewrite Hd in Hl2. cbn [snd app] in Hl2. subst log2.
  unfold _extract_document_info in He.
  destruct (DocumentReader.get_document_prompt doc_type) as [p|] eqn:Hp;
    [|discriminate].
  destruct (prompt_cases _ _ Hp) as ([t ->] & c & rest & ->).
  unfold bind, chat, lift, ret in He.
  destruct (create w (extract_request (String c rest) (image_url_of data)))
    as [content|e] eqn:Hc; [|discriminate].
  destruct (DocumentReader.validate_extracted_data json_loads (value t) (JStr content));
    [|discriminate].
  injection He as <- <-. cbn.
  destruct qc as [| | | | | |d]; try discriminate. injection Hv as <-.
  exists t, (String c rest), data, d.
  repeat split; try reflexivity; try assumption.
  - rewrite Z.gtb_ltb in Hs. apply Z.ltb_ge in Hs. exact Hs.
  - now apply all_yes_true.
Qed.

(** X11. A success dictionary whose extracted text decodes holds the data
    of a person of 18 to 100: the text decodes to an object, its
    [date_of_birth] is a string that [strptime] accepts, and the age at
    the current date is between 18 and 100. *)
Theorem success_means_reasonable_age (w : world time) path s log data :
  run w path = (Success s, log) ->
  json_loads (extracted_data (extracted s)) = Some data ->
  exists d dob date,
    data = JObj d
    /\ get d "date_of_birth" (JStr "") = JStr dob
    /\ Strptime.strptime dob = Some date
    /\ 18 <= age_of (now w) date <= 100.
Proof.
  intros H Hdec.
  destruct (success_inv _ _ _ _ _ _ _ H) as (qc & doc_type & info & Hreach & Hstep).
  pose proof (date_step_success _ _ _ _ _ _ _ _ _ _ Hstep) as Hs.
  assert (Hinfo : extracted s = info) by now subst s.
  rewrite Hinfo in Hdec. clear Hs Hinfo.
  destruct Hreach as (image & flags & log1 & log2 & _ & _ & _ & _ & _ & _ & He).
  apply extract_inv in He. destruct He as (prompt & Hp & _ & Hv & _).
  destruct (validate_decoded_is_object json_loads _ _ _ _ _ Hp Hdec Hv) as [d ->].
  revert Hstep. unfold date_step, bind, lift. rewrite Hdec. cbn [py_get].
  unfold _validate_date_reasonability.
  destruct (get d "date_of_birth" (JStr "")) as [| | | |dob| |] eqn:Eg;
    try discriminate.
  destruct (Strptime.strptime dob) as [date|] eqn:Es; [|discriminate].
  cbn [is_reasonable].
  destruct ((18 <=? age_of (now w) date) && (age_of (now w) date <=? 100)) eqn:E;
    [|discriminate].
  intros _. exists d, dob, date.
  apply andb_true_iff in E. rewrite !Z.leb_le in E.
  repeat split; try reflexivity; try assumption; lia.
Qed.

(** A date that is not reasonable comes with a message. *)
Lemma unreasonable_has_message today v dv :
  _validate_date_reasonability today v = Returned dv ->
  is_reasonable dv = false ->
  exists m, In (Some m) (issues dv).
Proof.
  unfold _validate_date_reasonability.
  destruct v as [| | | |s| |]; try discriminate.
  destruct (Strptime.strptime s) as [date|].
  - intros [= <-]. cbn [is_reasonable issues]. intros H.
    apply andb_false_iff in H. rewrite !Z.leb_gt in H.
    destruct H as [H|H].
    + exists "Age below 18". left.
      now replace (age_of today date <? 18) with true by (symmetry; apply Z.ltb_lt; lia).
    + exists "Age appears unreasonable (over 100 years)". right. left.
      now replace (age_of today date >? 100) with true by (symmetry; apply Z.gtb_lt; lia).
  - intros [= <-] _. exists "Invalid date format". now left.
Qed.

(** The requests sent when step 4 is reached *)
Lemma reaches_log (w : world time) path qc doc_type info log :
  reaches_date_step json_loads w path qc doc_type info log ->
  List.length log = 3%nat.
Proof.
  intros (data & flags & log1 & log2 & _ & _ & Hq & _ & _ & Hd & He).
  pose proof (quality_log json_loads time w (image_url_of data) []) as Hl1.
  rewrite Hq in Hl1. cbn [snd app] in Hl1. subst log1.
  pose proof (detect_log time w (image_url_of data) [quality_request (image_url_of data)])
    as Hl2.
  rewrite Hd in Hl2. cbn [snd app] in Hl2. subst log2.
  apply extract_inv in He. destruct He as (p & _ & _ & _ & ->). reflexivity.
Qed.

(** X12. The shape of an error dictionary.  It always carries the elapsed
    time.  It carries [quality_issues] only with the message "Image
    quality check failed", without [date_issues], after one request.  It
    carries [date_issues] only with the message "Date validation failed",
    without [quality_issues], after the three requests, and then at least
    one of the issues is a message. *)
Theorem error_dictionary_shape (w : world time) path f :
  fst (run w path) = Error f ->
  processing_time_seconds f = elapsed (clock_end w) (clock_start w)
  /\ (forall q, quality_issues f = Some q ->
                error_message f = "Image quality check failed"
                /\ date_issues f = None
                /\ List.length (snd (run w path)) = 1%nat)
  /\ (forall l, date_issues f = Some l ->
                error_message f = "Date validation failed"
                /\ quality_issues f = None
                /\ List.length (snd (run w path)) = 3%nat
                /\ exists m, In (Some m) l).
Proof.
  unfold process_kyc_document.
  destruct (pipeline json_loads elapsed w path []) as [[r|e] log] eqn:Hp; cbn [fst snd];
    [|intros [= <-]; cbn; split; [reflexivity|]; split; intros x Hx; discriminate].
  intros ->. revert Hp. unfold pipeline, bind, lift.
  destruct (read_file w path) as [data|e] eqn:Hr; [|discriminate].
  destruct (Z.of_nat (List.length data) >? size_limit) eqn:Hs; [discriminate|].
  destruct (quality_returns w (image_url_of data) []) as [v Hq]. rewrite Hq.
  cbn [app].
  destruct (py_values v) as [flags|e] eqn:Hv; [|discriminate].
  destruct (all_yes flags) eqn:Ha; cbn [negb].
  - unfold steps_2_to_5, bind.
    destruct (_detect_document_type w (image_url_of data) _)
      as [[doc_type|e] log2] eqn:Hd; [|discriminate].
    destruct (_extract_document_info json_loads w (image_url_of data) doc_type log2)
      as [[info|e] log3] eqn:He; [|discriminate].
    intros Hstep.
    assert (Hreach : reaches_date_step json_loads w path v doc_type info log3).
    { exists data, flags, [quality_request (image_url_of data)], log2.
      repeat split; assumption. }
    pose proof (date_step_log json_loads time elapsed w v doc_type info log3) as Hl.
    rewrite Hstep in Hl. cbn [snd] in Hl. subst log.
    pose proof (reaches_log _ _ _ _ _ _ Hreach) as Hlen.
    revert Hstep. unfold date_step, bind, lift, finish, ret.
    destruct (json_loads (extracted_data info)) as [data'|]; [|discriminate].
    destruct (py_get data' "date_of_birth" (JStr "")) as [dob|e]; [|discriminate].
    destruct (_validate_date_reasonability (now w) dob) as [dv|e] eqn:Hdv;
      [|discriminate].
    destruct (is_reasonable dv) eqn:Hre; cbn [negb]; [discriminate|].
    intros [= <-]. cbn.
    split; [reflexivity|]. split; [intros q Hq'; discriminate|].
    intros l' [= <-]. split; [reflexivity|]. split; [reflexivity|].
    split; [exact Hlen|].
    exact (unreasonable_has_message _ _ _ Hdv Hre).
  - intros [= <- <-]. cbn.
    split; [reflexivity|]. split; [|intros l' Hl'; discriminate].
    intros q _. repeat split.
Qed.

(** X13. What the extraction step records as its own field validation.
    The score is 0.92.  The validation is never the unknown-type error:
    when the completion does not decode it is the invalid-JSON error;
    otherwise the completion decodes to an object, and the validation
    lists, in the order of the table, the required fields that the object
    lacks, with [is_valid] telling whether there is none. *)
Theorem extraction_records_field_validation
        (w : world time) image_base64 doc_type log info log' :
  _extract_document_info json_loads w image_base64 doc_type log = (Returned info, log') ->
  confidence_score info = 0.92%Q
  /\ ((json_loads (extracted_data info) = None
       /\ ei_validation_result info =
            {| is_valid := false;
               error := Some "Invalid JSON format in extracted data";
               missing_fields := None; details := None; compliance_check := None |})
      \/ (exists d missing,
             json_loads (extracted_data info) = Some (JObj d)
             /\ missing = filter (fun field => negb (contains d field))
                                 (DocumentReader.get_required_fields doc_type)
             /\ ei_validation_result info =
                  {| is_valid := match missing with [] => true | _ :: _ => false end;
                     error := None;
                     missing_fields := Some missing;
                     details :=
                       Some {| vd_required_fields :=
                                 DocumentReader.get_required_fields doc_type;
                               vd_provided_fields := keys d |};
                     compliance_check := None |})).
Proof.
  unfold _extract_document_info.
  destruct (DocumentReader.get_document_prompt doc_type) as [p|] eqn:Hp;
    [|discriminate].
  pose proof (prompt_has_fields _ _ Hp) as Hreq.
  destruct (proj2 (prompt_cases _ _ Hp)) as (c & rest & ->).
  unfold bind, chat, lift, ret.
  destruct (create w (extract_request (String c rest) image_base64))
    as [content|e]; [|discriminate].
  unfold DocumentReader.validate_extracted_data.
  destruct (DocumentReader.get_required_fields doc_type) as [|f0 required] eqn:E;
    [contradiction|].
  destruct (json_loads content) as [data|] eqn:Hdec.
  - destruct data as [| | | | | |d]; try discriminate.
    cbn [DocumentReader.check_fields]. intros [= <- <-].
    split; [reflexivity|]. right.
    exists d, (filter (fun field => negb (contains d field)) (f0 :: required)).
    cbn [extracted_data ei_validation_result].
    split; [exact Hdec|]. split; [reflexivity|].
    cbn [filter]. destruct (negb (contains d f0)); [reflexivity|].
    now destruct (filter (fun field => negb (contains d field)) required).
  - intros [= <- <-]. split; [reflexivity|]. left. now split.
Qed.

End MorePipelineFacts.

(** * Further properties of the field validation *)

Section MoreValidationFacts.

Import DocumentReader.

Variable json_loads : string -> option json.

(** With a known type, the validation is [check_fields] on the decoded
    payload, and the invalid-JSON error when there is none. *)
Lemma validate_by_decoded doc_type payload f0 required :
  get_required_fields doc_type = f0 :: required ->
  validate_extracted_data json_loads doc_type payload =
    match decoded json_loads payload with
    | Some data => check_fields (f0 :: required) data
    | None =>
        Returned {| is_valid := false;
                    error := Some "Invalid JSON format in extracted data";
                    missing_fields := None; details := None; compliance_check := None |}
    end.
Proof.
  intros E. unfold validate_extracted_data. rewrite E.
  destruct payload; try reflexivity.
Qed.


(** X15. The validation looks at the keys of an object and never at its
    values: two objects with the same keys, in the same order, whatever
    they hold (an empty string, null, a number), validate alike. *)
Theorem validation_ignores_values doc_type (d1 d2 : dict) :
  keys d1 = keys d2 ->
  validate_extracted_data json_loads doc_type (JObj d1)
  = validate_extracted_data json_loads doc_type (JObj d2).
Proof.
  intros H. unfold validate_extracted_data, check_fields, contains.
  now rewrite H.
Qed.

(** X16. When the validation returns, [is_valid] is true exactly when the
    type is known, the payload is (or decodes to) an object, and every
    required field of the type is a key of it; and a field is listed as
    missing exactly when it is required and is no key of that object. *)
Theorem validation_outcome_characterised doc_type payload v :
  validate_extracted_data json_loads doc_type payload = Returned v ->
  (is_valid v = true <->
   get_required_fields doc_type <> []
   /\ exists d, decoded json_loads payload = Some (JObj d)
                /\ forall f, In f (get_required_fields doc_type) -> contains d f = true)
  /\ (forall l, missing_fields v = Some l ->
        exists d, decoded json_loads payload = Some (JObj d)
                  /\ forall f, In f l <->
                               In f (get_required_fields doc_type) /\ contains d f = false).
Proof.
  destruct (get_required_fields doc_type) as [|f0 required] eqn:E.
  - unfold validate_extracted_data. rewrite E. intros [= <-]. cbn.
    split; [split; [intros H; discriminate | now intros [H _]]
           | intros l H; discriminate].
  - rewrite (validate_by_decoded _ _ _ _ E).
    destruct (decoded json_loads payload) as [data|].
    + destruct data as [| | | | | |d]; try discriminate.
      unfold check_fields.
      set (missing := filter (fun field => negb (contains d field)) (f0 :: required)).
      assert (Hin : forall f, In f missing
                              <-> In f (f0 :: required) /\ contains d f = false).
      { intros f. unfold missing. rewrite filter_In, negb_true_iff. reflexivity. }
      clearbody missing. intros Hv. injection Hv as <-.
      cbn [is_valid missing_fields].
      split.
      * split.
        -- intros H. split; [discriminate|]. exists d. split; [reflexivity|].
           intros f Hf. destruct (contains d f) eqn:Hc; [reflexivity|].
           assert (Hm : In f missing) by now apply Hin.
           destruct missing; [contradiction | discriminate].
        -- intros (_ & d' & [= <-] & Hall).
           destruct missing as [|f l]; [reflexivity|]. exfalso.
           destruct (proj1 (Hin f) (or_introl eq_refl)) as [Hf Hc].
           rewrite (Hall f Hf) in Hc. discriminate.
      * intros l [= <-]. exists d. split; [reflexivity | exact Hin].
    + intros [= <-]. cbn.
      split; [split; [intros H; discriminate | now intros (_ & d & Hd & _)]
             | intros l H; discriminate].
Qed.


End MoreValidationFacts.

(** * Further properties of the date check *)

Section MoreDateFacts.

Import KYCProcessor.

(** X18. The verdict and the issues agree: for a string, and a current
    date that is a valid moment, [is_reasonable] is true exactly when no
    slot of the issues holds a message. *)
Theorem reasonable_iff_no_message today s dv :
  datetime_ok today = true ->
  _validate_date_reasonability today (JStr s) = Returned dv ->
  (is_reasonable dv = true <-> forall x, In x (issues dv) -> x = None).
Proof.
  intros Hok. unfold _validate_date_reasonability.
  destruct (Strptime.strptime s) as [date|] eqn:Hs; intros [= <-];
    cbn [is_reasonable issues].
  - split.
    + intros H. apply andb_true_iff in H. rewrite !Z.leb_le in H.
      destruct (datetime_gt date today) eqn:Hgt.
      * pose proof (future_date_negative_age _ _ _ Hok Hs Hgt). lia.
      * replace (age_of today date <? 18) with false by (symmetry; apply Z.ltb_ge; lia).
        replace (age_of today date >? 100) with false
          by (symmetry; rewrite Z.gtb_ltb; apply Z.ltb_ge; lia).
        intros x [<-|[<-|[<-|[]]]]; reflexivity.
    + intros H. apply andb_true_iff. rewrite !Z.leb_le. split.
      * destruct (Z.ltb_spec (age_of today date) 18) as [Hlt|Hge]; [|exact Hge].
        discriminate (H _ (or_introl eq_refl)).
      * destruct (Z.gtb_spec (age_of today date) 100) as [Hgt|Hle]; [|exact Hle].
        discriminate (H _ (or_intror (or_introl eq_refl))).
  - split; [discriminate|]. intros H. discriminate (H _ (or_introl eq_refl)).
Qed.

(** X19. A date of birth after the current moment is reported twice: as
    an age below 18 and as a date in the future; it is never reported as
    too old, and it is not reasonable. *)
Theorem future_date_has_two_issues today s date :
  datetime_ok today = true ->
  Strptime.strptime s = Some date ->
  datetime_gt date today = true ->
  _validate_date_reasonability today (JStr s) =
    Returned {| is_reasonable := false;
                issues := [Some "Age below 18"; None; Some "Date is in the future"] |}.
Proof.
  intros Hok Hs Hgt.
  pose proof (future_date_negative_age _ _ _ Hok Hs Hgt) as Hneg.
  unfold _validate_date_reasonability. rewrite Hs, Hgt.
  replace (18 <=? age_of today date) with false by (symmetry; apply Z.leb_gt; lia).
  replace (age_of today date <? 18) with true by (symmetry; apply Z.ltb_lt; lia).
  replace (age_of today date >? 100) with false
    by (symmetry; rewrite Z.gtb_ltb; apply Z.ltb_ge; lia).
  reflexivity.
Qed.

(** No time of day comes before midnight. *)
Lemma time_not_before_midnight h mi se us :
  0 <= h -> 0 <= mi -> 0 <= se -> 0 <= us ->
  tuple_lt [h; mi; se; us] [0; 0; 0; 0] = false.
Proof.
  intros Hh Hmi Hse Hus. cbn [tuple_lt].
  repeat match goal with
         | |- context [?a <? 0] =>
             replace (a <? 0) with false by (symmetry; apply Z.ltb_ge; lia)
         end.
  now rewrite !andb_false_r.
Qed.

(** X20. The date check depends on the current day only, not on the time
    of day: two current moments of the same day give the same verdict and
    the same issues on every input. *)
Theorem date_check_ignores_time_of_day t1 t2 v :
  datetime_ok t1 = true ->
  datetime_ok t2 = true ->
  year t1 = year t2 -> month t1 = month t2 -> day t1 = day t2 ->
  _validate_date_reasonability t1 v = _validate_date_reasonability t2 v.
Proof.
  intros H1 H2 Hy Hm Hd.
  unfold _validate_date_reasonability.
  destruct v as [| | | |s| |]; try reflexivity.
  destruct (Strptime.strptime s) as [date|] eqn:Hs; [|reflexivity].
  destruct (strptime_midnight _ _ Hs) as (_ & Hh & Hmi & Hse & Hus).
  assert (Hage : age_of t1 date = age_of t2 date)
    by (unfold age_of; now rewrite Hy, Hm, Hd).
  assert (Hgt : datetime_gt date t1 = datetime_gt date t2).
  { unfold datetime_ok in H1, H2. rewrite !andb_true_iff, !Z.leb_le in H1, H2.
    unfold datetime_gt, astuple. rewrite Hh, Hmi, Hse, Hus, Hy, Hm, Hd.
    change (tuple_lt [year t2; month t2; day t2; hour t1; minute t1; second t1; microsecond t1]
              [year date; month date; day date; 0; 0; 0; 0])
      with ((year t2 <? year date)
            || ((year t2 =? year date)
                && ((month t2 <? month date)
                    || ((month t2 =? month date)
                        && ((day t2 <? day date)
                            || ((day t2 =? day date)
                                && tuple_lt [hour t1; minute t1; second t1; microsecond t1]
                                            [0; 0; 0; 0])))))).
    change (tuple_lt [year t2; month t2; day t2; hour t2; minute t2; second t2; microsecond t2]
              [year date; month date; day date; 0; 0; 0; 0])
      with ((year t2 <? year date)
            || ((year t2 =? year date)
                && ((month t2 <? month date)
                    || ((month t2 =? month date)
                        && ((day t2 <? day date)
                            || ((day t2 =? day date)
                                && tuple_lt [hour t2; minute t2; second t2; microsecond t2]
                                            [0; 0; 0; 0])))))).
    rewrite !time_not_before_midnight by lia. reflexivity. }
  now rewrite Hage, Hgt.
Qed.

(** *** Dates in ISO form *)

(** A property of the integers of a short range holds when it holds of
    each of them. *)
Lemma range_cases (P : Z -> Prop) (lo : Z) (n : nat) :
  (forall i, (i < n)%nat -> P (lo + Z.of_nat i)) ->
  forall k, lo <= k < lo + Z.of_nat n -> P k.
Proof.
  intros H k Hk.
  replace k with (lo + Z.of_nat (Z.to_nat (k - lo))) by lia.
  apply H. lia.
Qed.

Lemma code_digit_char k : 0 <= k <= 9 -> code (digit_char k) = 48 + k.
Proof.
  intros Hk. revert k Hk.
  assert (H : forall k, 0 <= k < 0 + Z.of_nat 10 -> code (digit_char k) = 48 + k).
  { apply (range_cases (fun k => code (digit_char k) = 48 + k)).
    intros i Hi. do 10 (destruct i as [|i]; [reflexivity|]). lia. }
  intros k Hk. apply H. lia.
Qed.

Lemma isspace_digit_char k : 0 <= k <= 9 -> isspace (digit_char k) = false.
Proof.
  intros Hk. unfold isspace. rewrite (code_digit_char k Hk).
  repeat match goal with
         | |- context [?a <=? ?b] =>
             first [ replace (a <=? b) with true by (symmetry; apply Z.leb_le; lia)
                   | replace (a <=? b) with false by (symmetry; apply Z.leb_gt; lia) ]
         | |- context [?a =? ?b] =>
             replace (a =? b) with false by (symmetry; apply Z.eqb_neq; lia)
         end.
  reflexivity.
Qed.

Lemma digit_matches k rest :
  0 <= k <= 9 ->
  Strptime.digit (String (digit_char k) rest)
  = [(String (digit_char k) EmptyString, rest)].
Proof.
  intros Hk. unfold Strptime.digit, Strptime.between, Strptime.one.
  rewrite (code_digit_char k Hk).
  change (code "0") with 48. change (code "9") with 57.
  replace (48 <=? 48 + k) with true by (symmetry; apply Z.leb_le; lia).
  now replace (48 + k <=? 57) with true by (symmetry; apply Z.leb_le; lia).
Qed.

Lemma int_two_digits k : 0 <= k <= 99 -> Strptime.int (two_digits k) = k.
Proof.
  intros Hk.
  assert (Ha : 0 <= k / 10 <= 9) by (Z.to_euclidean_division_equations; lia).
  assert (Hb : 0 <= k mod 10 <= 9) by (Z.to_euclidean_division_equations; lia).
  unfold Strptime.int, two_digits, strip.
  cbn [lstrip]. rewrite (isspace_digit_char _ Ha).
  cbn [rstrip]. rewrite (isspace_digit_char _ Hb).
  cbn [Strptime.digits].
  rewrite (code_digit_char _ Ha), (code_digit_char _ Hb).
  Z.to_euclidean_division_equations; lia.
Qed.

Lemma int_four_digits y : 0 <= y <= 9999 -> Strptime.int (four_digits y) = y.
Proof.
  intros Hy.
  assert (Ha : 0 <= y / 1000 <= 9) by (Z.to_euclidean_division_equations; lia).
  assert (Hb : 0 <= y / 100 mod 10 <= 9) by (Z.to_euclidean_division_equations; lia).
  assert (Hc : 0 <= y mod 100 / 10 <= 9) by (Z.to_euclidean_division_equations; lia).
  assert (Hd : 0 <= y mod 100 mod 10 <= 9) by (Z.to_euclidean_division_equations; lia).
  unfold Strptime.int, four_digits, two_digits, strip.
  cbn [lstrip]. rewrite (isspace_digit_char _ Ha).
  cbn [rstrip]. rewrite (isspace_digit_char _ Hd).
  cbn [Strptime.digits].
  rewrite (code_digit_char _ Ha), (code_digit_char _ Hb),
    (code_digit_char _ Hc), (code_digit_char _ Hd).
  Z.to_euclidean_division_equations; lia.
Qed.

Lemma re_Y_four_digits y rest :
  0 <= y <= 9999 ->
  Strptime.re_Y (four_digits y ++ rest) = [(four_digits y, rest)].
Proof.
  intros Hy.
  assert (Ha : 0 <= y / 1000 <= 9) by (Z.to_euclidean_division_equations; lia).
  assert (Hb : 0 <= y / 100 mod 10 <= 9) by (Z.to_euclidean_division_equations; lia).
  assert (Hc : 0 <= y mod 100 / 10 <= 9) by (Z.to_euclidean_division_equations; lia).
  assert (Hd : 0 <= y mod 100 mod 10 <= 9) by (Z.to_euclidean_division_equations; lia).
  unfold four_digits, two_digits. cbn [append].
  unfold Strptime.re_Y, Strptime.seq.
  rewrite (digit_matches _ _ Ha). cbn [flat_map map fst snd app].
  rewrite (digit_matches _ _ Hb). cbn [flat_map map fst snd app].
  rewrite (digit_matches _ _ Hc). cbn [flat_map map fst snd app].
  rewrite (digit_matches _ _ Hd). cbn [flat_map map fst snd app append].
  reflexivity.
Qed.

(** After the year, the month and the day of a padded date match, and
    nothing is left. *)
Lemma found_iso_tail (Y : string) m d :
  1 <= m <= 12 -> 1 <= d <= 31 ->
  hd_error
    (flat_map (fun Yp =>
       flat_map (fun _1 =>
         flat_map (fun mm =>
           flat_map (fun _2 =>
             map (fun dd => (fst Yp, fst mm, fst dd, snd dd)) (Strptime.re_d (snd _2)))
             (Strptime.lit "-" (snd mm)))
           (Strptime.re_m (snd _1)))
         (Strptime.lit "-" (snd Yp)))
       [(Y, "-" ++ two_digits m ++ "-" ++ two_digits d)])
  = Some (Y, two_digits m, two_digits d, EmptyString).
Proof.
  intros Hm Hd. revert d Hd. pattern m.
  apply (range_cases _ 1 12); [|lia]. intros i Hi d Hd. pattern d.
  apply (range_cases _ 1 31); [|lia]. intros j Hj.
  do 12 (destruct i as [|i];
         [do 31 (destruct j as [|j]; [vm_compute; reflexivity|]); lia|]).
  lia.
Qed.

Lemma days_in_month_le y m : days_in_month y m <= 31.
Proof.
  unfold days_in_month.
  destruct (m =? 2); [destruct (is_leap y); lia|].
  destruct ((m =? 4) || (m =? 6) || (m =? 9) || (m =? 11)); lia.
Qed.

(** X21. Every valid calendar date written as YYYY-MM-DD with leading
    zeros is read back as that date, so the date check never answers
    "Invalid date format" for it: its verdict is the one of the age. *)
Theorem iso_dates_are_accepted today d :
  datetime_ok d = true ->
  hour d = 0 -> minute d = 0 -> second d = 0 -> microsecond d = 0 ->
  Strptime.strptime (isoformat d) = Some d
  /\ exists dv,
       _validate_date_reasonability today (JStr (isoformat d)) = Returned dv
       /\ is_reasonable dv = (18 <=? age_of today d) && (age_of today d <=? 100)
       /\ ~ In (Some "Invalid date format") (issues dv).
Proof.
  intros Hok Hh Hmi Hse Hus.
  assert (Hparse : Strptime.strptime (isoformat d) = Some d).
  { pose proof Hok as Hb. unfold datetime_ok in Hb.
    rewrite !andb_true_iff, !Z.leb_le in Hb.
    pose proof (days_in_month_le (year d) (month d)) as Hdim.
    unfold Strptime.strptime.
    assert (Hf : Strptime.found (isoformat d)
                 = Some (four_digits (year d), two_digits (month d), two_digits (day d),
                         EmptyString)).
    { unfold Strptime.found, isoformat. rewrite re_Y_four_digits by lia.
      apply found_iso_tail; lia. }
    rewrite Hf.
    rewrite int_four_digits, !int_two_digits by lia.
    destruct d as [y m dd h mi se us]. cbn in Hh, Hmi, Hse, Hus. subst.
    cbn [year month day]. now rewrite Hok. }
  split; [exact Hparse|].
  unfold _validate_date_reasonability. rewrite Hparse.
  eexists. split; [reflexivity|]. split; [reflexivity|].
  cbn [issues In].
  destruct (age_of today d <? 18), (age_of today d >? 100), (datetime_gt d today);
    intuition discriminate.
Qed.

End MoreDateFacts.

(** * The normal form of the classification *)

Section NormalFormFacts.

Import KYCProcessor.

Lemma lower_char_idem c : lower_char (lower_char c) = lower_char c.
Proof. destruct c as [[] [] [] [] [] [] [] []]; reflexivity. Qed.

Lemma isspace_lower_char c : isspace (lower_char c) = isspace c.
Proof. destruct c as [[] [] [] [] [] [] [] []]; reflexivity. Qed.

Lemma lower_idem s : lower (lower s) = lower s.
Proof.
  induction s as [|c s IH]; [reflexivity|].
  cbn [lower]. now rewrite lower_char_idem, IH.
Qed.

Lemma lstrip_lower s : lstrip (lower s) = lower (lstrip s).
Proof.
  induction s as [|c s IH]; [reflexivity|].
  cbn [lower lstrip]. rewrite isspace_lower_char.
  now destruct (isspace c).
Qed.

Lemma rstrip_lower s : rstrip (lower s) = lower (rstrip s).
Proof.
  induction s as [|c s IH]; [reflexivity|].
  cbn [lower rstrip]. rewrite IH, isspace_lower_char.
  destruct (rstrip s); cbn [lower]; [now destruct (isspace c) | reflexivity].
Qed.

Lemma strip_lower s : strip (lower s) = lower (strip s).
Proof. unfold strip. now rewrite lstrip_lower, rstrip_lower. Qed.

Lemma rstrip_idem s : rstrip (rstrip s) = rstrip s.
Proof.
  induction s as [|c s IH]; [reflexivity|].
  cbn [rstrip]. destruct (rstrip s) as [|a r] eqn:E.
  - destruct (isspace c) eqn:Hc; [reflexivity|]. cbn [rstrip]. now rewrite Hc.
  - change (rstrip (String c (String a r)))
      with (match rstrip (String a r) with
            | EmptyString => if isspace c then EmptyString else String c EmptyString
            | rest => String c rest
            end).
    now rewrite IH.
Qed.

(** What [lstrip] leaves does not start with white space. *)
Lemma lstrip_head s : lstrip s = EmptyString
                      \/ exists c t, lstrip s = String c t /\ isspace c = false.
Proof.
  induction s as [|c s IH]; [now left|].
  cbn [lstrip]. destruct (isspace c) eqn:Hc; [exact IH|].
  right. now exists c, s.
Qed.

Lemma lstrip_rstrip_lstrip s : lstrip (rstrip (lstrip s)) = rstrip (lstrip s).
Proof.
  destruct (lstrip_head s) as [->|(c & t & -> & Hc)]; [reflexivity|].
  cbn [rstrip]. destruct (rstrip t); rewrite ?Hc; cbn [lstrip]; now rewrite Hc.
Qed.

Lemma strip_idem s : strip (strip s) = strip s.
Proof. unfold strip. now rewrite lstrip_rstrip_lstrip, rstrip_idem. Qed.

(** X22. The document type that the classification step hands on is the
    completion of its one request, stripped and in lower case; it is in
    normal form: stripping it or lowering it again changes nothing. *)
Theorem classification_is_normalised {time : Type} (w : world time) u log token log' :
  _detect_document_type w u log = (Returned token, log') ->
  (exists content, create w (classify_request u) = Returned content
                   /\ token = lower (strip content))
  /\ strip token = token
  /\ lower token = token
  /\ log' = (log ++ [classify_request u])%list.
Proof.
  unfold _detect_document_type, bind, chat, ret.
  destruct (create w (classify_request u)) as [content|e]; [|discriminate].
  intros [= <- <-].
  split; [now exists content|].
  split; [|split; [apply lower_idem | reflexivity]].
  now rewrite <- strip_lower, strip_idem.
Qed.

End NormalFormFacts.

(** * The further properties on concrete runs *)

Lemma gate_passed_in_scenario classification extraction :
  passes_quality_gate MiniJson.loads
    (MoreRuns.world_of (Returned Scenario.all_yes_text) classification extraction)
    Scenario.image_path Scenario.image MoreRuns.all_yes_object.
Proof.
  repeat split; try reflexivity. unfold KYCProcessor.size_limit. cbn. lia.
Defined.

(** A path with no file behind it *)
Lemma no_request_iff_image_unusable_witness :
  KYCProcessor.process_kyc_document MiniJson.loads Z.sub
    (MoreRuns.world_of (Returned Scenario.all_yes_text) (Returned "license")
       (Returned Scenario.license_text))
    "documents/missing.png"
  = (MoreRuns.generic_error "[Errno 2] No such file or directory", []).
Proof.
  exact (proj2 (no_request_iff_image_unusable MiniJson.loads Z Z.sub
                  (MoreRuns.world_of (Returned Scenario.all_yes_text) (Returned "license")
                     (Returned Scenario.license_text))
                  "documents/missing.png")
           (Exn OSError "[Errno 2] No such file or directory") eq_refl).
Defined.

Lemma failed_assessment_counts_as_all_no_witness :
  KYCProcessor.process_kyc_document MiniJson.loads Z.sub
    (MoreRuns.world_of (Raised MoreRuns.timeout_error) (Returned "license")
       (Returned Scenario.license_text))
    Scenario.image_path
  = (KYCProcessor.Error
       {| KYCProcessor.error_message := "Image quality check failed";
          KYCProcessor.quality_issues := Some KYCProcessor.quality_default;
          KYCProcessor.date_issues := None;
          KYCProcessor.processing_time_seconds := 250 |},
     [KYCProcessor.quality_request MoreRuns.the_url]).
Proof.
  apply (failed_assessment_counts_as_all_no MiniJson.loads Z Z.sub
           (MoreRuns.world_of (Raised MoreRuns.timeout_error) (Returned "license")
              (Returned Scenario.license_text))
           Scenario.image_path Scenario.image eq_refl).
  - cbn. lia.
  - left. exists MoreRuns.timeout_error. reflexivity.
Defined.

Lemma non_object_assessment_is_generic_error_witness :
  Scenario.run Scenario.image "[]" "license" Scenario.license_text
  = (MoreRuns.generic_error "'list' object has no attribute 'values'",
     [KYCProcessor.quality_request MoreRuns.the_url]).
Proof.
  apply (non_object_assessment_is_generic_error MiniJson.loads Z Z.sub
           (MoreRuns.world_of (Returned "[]") (Returned "license")
              (Returned Scenario.license_text))
           Scenario.image_path Scenario.image "[]" (JArr []) eq_refl).
  - cbn. lia.
  - reflexivity.
  - reflexivity.
  - reflexivity.
Defined.

Lemma classification_failure_is_generic_error_witness :
  KYCProcessor.process_kyc_document MiniJson.loads Z.sub
    (MoreRuns.world_of (Returned Scenario.all_yes_text) (Raised MoreRuns.timeout_error)
       (Returned Scenario.license_text))
    Scenario.image_path
  = (MoreRuns.generic_error "Request timed out",
     [KYCProcessor.quality_request MoreRuns.the_url;
      KYCProcessor.classify_request MoreRuns.the_url]).
Proof.
  exact (classification_failure_is_generic_error MiniJson.loads Z Z.sub _ _ _ _
           MoreRuns.timeout_error
           (gate_passed_in_scenario (Raised MoreRuns.timeout_error)
              (Returned Scenario.license_text))
           eq_refl).
Defined.

Lemma unsupported_type_stops_before_extraction_witness :
  Scenario.run Scenario.image Scenario.all_yes_text " Invoice " Scenario.license_text
  = (MoreRuns.generic_error "Unsupported document type: invoice",
     [KYCProcessor.quality_request MoreRuns.the_url;
      KYCProcessor.classify_request MoreRuns.the_url]).
Proof.
  apply (unsupported_type_stops_before_extraction MiniJson.loads Z Z.sub _ _ _ _
           " Invoice "
           (gate_passed_in_scenario (Returned " Invoice ")
              (Returned Scenario.license_text))
           eq_refl).
  intros []; discriminate.
Defined.

Lemma extraction_failure_is_generic_error_witness :
  KYCProcessor.process_kyc_document MiniJson.loads Z.sub
    (MoreRuns.world_of (Returned Scenario.all_yes_text) (Returned "license")
       (Raised MoreRuns.timeout_error))
    Scenario.image_path
  = (MoreRuns.generic_error "Request timed out",
     [KYCProcessor.quality_request MoreRuns.the_url;
      KYCProcessor.classify_request MoreRuns.the_url;
      KYCProcessor.extract_request MoreRuns.license_prompt MoreRuns.the_url]).
Proof.
  exact (extraction_failure_is_generic_error MiniJson.loads Z Z.sub _ _ _ _
           "license" MoreRuns.license_prompt MoreRuns.timeout_error
           (gate_passed_in_scenario (Returned "license") (Raised MoreRuns.timeout_error))
           eq_refl eq_refl eq_refl).
Defined.

Lemma non_object_extraction_is_generic_error_witness :
  Scenario.run Scenario.image Scenario.all_yes_text "license" "[]"
  = (MoreRuns.generic_error "'list' object has no attribute 'keys'",
     [KYCProcessor.quality_request MoreRuns.the_url;
      KYCProcessor.classify_request MoreRuns.the_url;
      KYCProcessor.extract_request MoreRuns.license_prompt MoreRuns.the_url]).
Proof.
  exact (non_object_extraction_is_generic_error MiniJson.loads Z Z.sub _ _ _ _
           "license" MoreRuns.license_prompt "[]" (JArr [])
           (gate_passed_in_scenario (Returned "license") (Returned "[]"))
           eq_refl eq_refl eq_refl eq_refl eq_refl).
Defined.

Lemma date_step_reached_in_scenario classification extraction :
  forall doc_type info,
    fst (KYCProcessor._extract_document_info MiniJson.loads
           (MoreRuns.world_of (Returned Scenario.all_yes_text) (Returned classification)
              (Returned extraction))
           MoreRuns.the_url doc_type
           [KYCProcessor.quality_request MoreRuns.the_url;
            KYCProcessor.classify_request MoreRuns.the_url]) = Returned info ->
    doc_type = lower (strip classification) ->
    KYCProcessor.reaches_date_step MiniJson.loads
      (MoreRuns.world_of (Returned Scenario.all_yes_text) (Returned classification)
         (Returned extraction))
      Scenario.image_path (JObj MoreRuns.all_yes_object) doc_type info
      (snd (KYCProcessor._extract_document_info MiniJson.loads
              (MoreRuns.world_of (Returned Scenario.all_yes_text) (Returned classification)
                 (Returned extraction))
              MoreRuns.the_url doc_type
              [KYCProcessor.quality_request MoreRuns.the_url;
               KYCProcessor.classify_request MoreRuns.the_url])).
Proof.
  intros doc_type info He ->.
  exists Scenario.image, (values MoreRuns.all_yes_object),
    [KYCProcessor.quality_request MoreRuns.the_url],
    [KYCProcessor.quality_request MoreRuns.the_url;
     KYCProcessor.classify_request MoreRuns.the_url].
  repeat split; try reflexivity.
  destruct (KYCProcessor._extract_document_info _ _ _ _ _) as [o l].
  cbn [fst snd] in *. now subst o.
Defined.

(** The date of birth is a number. *)
Lemma non_string_date_of_birth_is_generic_error_witness :
  fst (Scenario.run Scenario.image Scenario.all_yes_text "license"
         (MiniJson.dq "{'full_name': 'Ada Byron', 'date_of_birth': 19960517}"))
  = MoreRuns.generic_error "strptime() argument 1 must be str, not int".
Proof.
  refine (f_equal fst
            (non_string_date_of_birth_is_generic_error MiniJson.loads Z Z.sub _ _ _ _ _ _
               [("full_name", JStr "Ada Byron"); ("date_of_birth", JInt 19960517)]
               (date_step_reached_in_scenario "license"
                  (MiniJson.dq "{'full_name': 'Ada Byron', 'date_of_birth': 19960517}")
                  "license" _ eq_refl eq_refl)
               eq_refl _)).
  intros s. discriminate.
Defined.

Lemma success_characterised_witness :
  exists s log,
    Scenario.run Scenario.image Scenario.all_yes_text "license" Scenario.license_text
      = (KYCProcessor.Success s, log)
    /\ KYCProcessor.document_type s = value LICENSE
    /\ KYCProcessor.pm_confidence_score (KYCProcessor.metrics s) = 0.92%Q
    /\ List.length log = 3%nat.
Proof.
  assert (E : exists s log,
             Scenario.run Scenario.image Scenario.all_yes_text "license"
               Scenario.license_text = (KYCProcessor.Success s, log))
    by (do 2 eexists; vm_compute; reflexivity).
  destruct E as (s & log & E). exists s, log. split; [exact E|].
  destruct (success_characterised MiniJson.loads Z Z.sub _ _ s log E)
    as (t & p & data & qc & Ht & _ & _ & _ & _ & _ & _ & Hc & ->).
  split; [|split; [exact Hc | reflexivity]].
  rewrite Ht. f_equal.
  unfold Scenario.run in E. vm_compute in E. injection E as <- _. cbn in Ht.
  destruct t; try discriminate. reflexivity.
Defined.

Lemma success_means_reasonable_age_witness :
  exists s log,
    Scenario.run Scenario.image Scenario.all_yes_text "license" Scenario.license_text
      = (KYCProcessor.Success s, log)
    /\ exists d dob date,
         MiniJson.loads (extracted_data (KYCProcessor.extracted s)) = Some (JObj d)
         /\ get d "date_of_birth" (JStr "") = JStr dob
         /\ Strptime.strptime dob = Some date
         /\ 18 <= KYCProcessor.age_of Scenario.today date <= 100.
Proof.
  assert (E : exists s log,
             Scenario.run Scenario.image Scenario.all_yes_text "license"
               Scenario.license_text = (KYCProcessor.Success s, log)
             /\ MiniJson.loads (extracted_data (KYCProcessor.extracted s)) <> None).
  { do 2 eexists. split; [vm_compute; reflexivity|]. vm_compute. discriminate. }
  destruct E as (s & log & E & Hdec). exists s, log. split; [exact E|].
  destruct (MiniJson.loads (extracted_data (KYCProcessor.extracted s))) as [data|] eqn:Hd;
    [|contradiction].
  destruct (success_means_reasonable_age MiniJson.loads Z Z.sub _ _ s log data E Hd)
    as (d & dob & date & -> & Hg & Hs & Hage).
  exists d, dob, date. repeat split; try assumption; apply Hage.
Defined.

(** The holder is 17: a date failure. *)
Lemma error_dictionary_shape_witness :
  exists f,
    fst (Scenario.run Scenario.image Scenario.all_yes_text "license"
           (MiniJson.dq "{'date_of_birth': '2008-11-05'}")) = KYCProcessor.Error f
    /\ KYCProcessor.date_issues f = Some [Some "Age below 18"; None; None]
    /\ KYCProcessor.error_message f = "Date validation failed"
    /\ KYCProcessor.quality_issues f = None.
Proof.
  eexists. split; [vm_compute; reflexivity|]. split; [reflexivity|].
  destruct (error_dictionary_shape MiniJson.loads Z Z.sub
              (MoreRuns.world_of (Returned Scenario.all_yes_text) (Returned "license")
                 (Returned (MiniJson.dq "{'date_of_birth': '2008-11-05'}")))
              Scenario.image_path _ eq_refl) as (_ & _ & Hdate).
  destruct (Hdate _ eq_refl) as (Hm & Hq & _).
  split; [exact Hm | exact Hq].
Defined.

Lemma extraction_records_field_validation_witness :
  exists info log,
    KYCProcessor._extract_document_info MiniJson.loads
      (MoreRuns.world_of (Returned Scenario.all_yes_text) (Returned "license")
         (Returned (MiniJson.dq "{'full_name': 'Ada Byron', 'state': 'CA'}")))
      MoreRuns.the_url "license" [] = (Returned info, log)
    /\ confidence_score info = 0.92%Q
    /\ missing_fields (ei_validation_result info)
       = Some ["date_of_birth"; "license_number"; "expiry_date"].
Proof.
  do 2 eexists. split; [vm_compute; reflexivity|].
  split; [|reflexivity].
  exact (proj1 (extraction_records_field_validation MiniJson.loads Z
                  (MoreRuns.world_of (Returned Scenario.all_yes_text) (Returned "license")
                     (Returned (MiniJson.dq "{'full_name': 'Ada Byron', 'state': 'CA'}")))
                  MoreRuns.the_url "license" [] _ _ eq_refl)).
Defined.


(** Empty strings and null count as present. *)
Lemma validation_ignores_values_witness :
  DocumentReader.validate_extracted_data MiniJson.loads "national_id"
    (JObj [("full_name", JStr ""); ("date_of_birth", JNull);
           ("id_number", JInt 0); ("nationality", JStr "")])
  = DocumentReader.validate_extracted_data MiniJson.loads "national_id"
      (JObj [("full_name", JStr "Ada Byron"); ("date_of_birth", JStr "1996-05-17");
             ("id_number", JStr "X1"); ("nationality", JStr "UK")]).
Proof.
  apply (validation_ignores_values MiniJson.loads "national_id").
  reflexivity.
Defined.

Lemma validation_outcome_characterised_witness :
  exists v,
    DocumentReader.validate_extracted_data MiniJson.loads "bank_statement"
      (JStr (MiniJson.dq "{'bank_name': 'B', 'balance': '1'}")) = Returned v
    /\ is_valid v <> true
    /\ forall l, missing_fields v = Some l ->
                 (In "account_number" l /\ ~ In "balance" l).
Proof.
  eexists. split; [reflexivity|].
  destruct (validation_outcome_characterised MiniJson.loads "bank_statement"
              (JStr (MiniJson.dq "{'bank_name': 'B', 'balance': '1'}")) _ eq_refl)
    as (Hvalid & Hmissing).
  split.
  - intros H. apply Hvalid in H. destruct H as (_ & d & Hd & Hall).
    injection Hd as <-. specialize (Hall "account_number"). cbn in Hall.
    discriminate Hall. auto.
  - intros l Hl. destruct (Hmissing l Hl) as (d & Hd & Hin).
    injection Hd as <-. split.
    + apply Hin. split; [cbn; auto | reflexivity].
    + intros H. apply Hin in H. destruct H as [_ H]. discriminate H.
Defined.


Lemma reasonable_iff_no_message_witness :
  exists dv,
    KYCProcessor._validate_date_reasonability Scenario.today (JStr "1996-05-17")
      = Returned dv
    /\ forall x, In x (issues dv) -> x = None.
Proof.
  eexists. split; [reflexivity|].
  apply (proj1 (reasonable_iff_no_message Scenario.today "1996-05-17" _ eq_refl eq_refl)).
  reflexivity.
Defined.

Lemma future_date_has_two_issues_witness :
  KYCProcessor._validate_date_reasonability Scenario.today (JStr "2026-11-05")
  = Returned {| is_reasonable := false;
                issues := [Some "Age below 18"; None; Some "Date is in the future"] |}.
Proof.
  exact (future_date_has_two_issues Scenario.today "2026-11-05" _ eq_refl eq_refl eq_refl).
Defined.

(** Just after midnight and just before the next one *)
Lemma date_check_ignores_time_of_day_witness :
  KYCProcessor._validate_date_reasonability
    {| year := 2026; month := 11; day := 4;
       hour := 0; minute := 0; second := 0; microsecond := 1 |} (JStr "2026-11-04")
  = KYCProcessor._validate_date_reasonability
      {| year := 2026; month := 11; day := 4;
         hour := 23; minute := 59; second := 59; microsecond := 999999 |}
      (JStr "2026-11-04").
Proof.
  apply date_check_ignores_time_of_day; reflexivity.
Defined.

(** A leap day *)
Lemma iso_dates_are_accepted_witness :
  isoformat {| year := 2000; month := 2; day := 29;
               hour := 0; minute := 0; second := 0; microsecond := 0 |} = "2000-02-29"
  /\ Strptime.strptime "2000-02-29"
     = Some {| year := 2000; month := 2; day := 29;
               hour := 0; minute := 0; second := 0; microsecond := 0 |}.
Proof.
  split; [reflexivity|].
  exact (proj1 (iso_dates_are_accepted Scenario.today
                  {| year := 2000; month := 2; day := 29;
                     hour := 0; minute := 0; second := 0; microsecond := 0 |}
                  eq_refl eq_refl eq_refl eq_refl eq_refl)).
Defined.

Lemma classification_is_normalised_witness :
  exists token log,
    KYCProcessor._detect_document_type
      (MoreRuns.world_of (Returned Scenario.all_yes_text) (Returned "  PassPort
")
         (Returned Scenario.license_text))
      MoreRuns.the_url [] = (Returned token, log)
    /\ token = "passport"
    /\ strip token = token
    /\ lower token = token.
Proof.
  do 2 eexists. split; [vm_compute; reflexivity|]. split; [reflexivity|].
  destruct (classification_is_normalised
              (MoreRuns.world_of (Returned Scenario.all_yes_text) (Returned "  PassPort
")
                 (Returned Scenario.license_text))
              MoreRuns.the_url [] _ _ eq_refl) as (_ & Hs & Hl & _).
  split; [exact Hs | exact Hl].
Defined.
